(** * A shallow embedding of the VR-mask rental bot (backend/server.py)

    The booking engine (availability scan, pricing table, reservation
    store) and the intake dialogue handlers are embedded as pure functions
    over an explicit state: the in-process [user_sessions] dictionary and
    the [db.bookings] collection.

    Conventions.
    - A Python [int] is a [Z].  A [datetime] (always UTC in the source) is
      a [Z] counting microseconds since the epoch, the resolution of
      Python's [datetime]; [timedelta(days=n)] is [n * day].
    - a Python [dict] is a [gmap]; a missing key is [KeyError].
    - [db.bookings] is the list of its documents in insertion order.
    - the values the source draws from its environment ([datetime.now],
      [uuid.uuid4], the Telegram user of the update) are arguments. *)

From Stdlib Require Import ZArith List Lia Bool.
From stdpp Require Import gmap strings list fin_maps sorting.

Open Scope string_scope.
Open Scope list_scope.
Open Scope Z_scope.

(** ** Time *)

Abbreviation datetime := Z (only parsing).

(** Microseconds in [timedelta(days=1)]. *)
Definition day : Z := 86400000000.

Definition timedelta_days (n : Z) : Z := n * day.

(** [dt.replace(hour=0, minute=0, second=0, microsecond=0)] on a UTC datetime. *)
Definition midnight (dt : datetime) : datetime := dt - dt mod day.

(** ** Pydantic model [Booking] *)

Record Booking := mkBooking {
  id : string;
  user_id : Z;
  username : option string;
  first_name : option string;
  masks_count : Z;
  days_count : Z;
  start_date : datetime;
  end_date : datetime;
  price : Z;
  delivery_address : string;
  status : string;
  created_at : datetime
}.

Definition set_status (s : string) (b : Booking) : Booking :=
  {| id := id b; user_id := user_id b; username := username b;
     first_name := first_name b; masks_count := masks_count b;
     days_count := days_count b; start_date := start_date b;
     end_date := end_date b; price := price b;
     delivery_address := delivery_address b; status := s;
     created_at := created_at b |}.

(** ** Pricing configuration *)

Definition PRICES : gmap Z (gmap Z Z) :=
  {[ 1 := {[ 1 := 70; 2 := 130; 3 := 180 ]};
     2 := {[ 1 := 140; 2 := 260; 3 := 360 ]} ]}.

(** [PRICES[masks_count][days_count]]; [None] is [KeyError]. *)
Definition PRICES_get (masks days : Z) : option Z :=
  row ← PRICES !! masks; row !! days.

(** ** The queries of [get_available_dates] *)

(** ["status": {"$in": ["pending", "confirmed"]}] *)
Definition status_in (l : list string) (b : Booking) : bool :=
  existsb (String.eqb (status b)) l.

Definition active_statuses : list string := ["pending"; "confirmed"].

(** The filter document shared by [count_documents] and the [$match] stage. *)
Definition period_filter (check_date end_date' : datetime) (b : Booking) : bool :=
  status_in active_statuses b &&
  (   ((start_date b <? end_date') && (start_date b >=? check_date))
   || ((end_date b >? check_date) && (end_date b <=? end_date'))
   || ((start_date b <=? check_date) && (end_date b >=? end_date'))).

Definition count_documents (f : Booking → bool) (db : list Booking) : Z :=
  Z.of_nat (length (filter (λ b, f b = true) db)).

Fixpoint sum_masks (l : list Booking) : Z :=
  match l with
  | [] => 0
  | b :: l' => masks_count b + sum_masks l'
  end.

(** [$match] then [$group] with [_id: None]: one group document holding
    the sum when some document matched, no document otherwise; the source
    reads [result[0]["total_masks"] if result else 0]. *)
Definition aggregate_total_masks (f : Booking → bool) (db : list Booking) : list Z :=
  match filter (λ b, f b = true) db with
  | [] => []
  | m => [sum_masks m]
  end.

Definition booked_masks (db : list Booking) (check_date end_date' : datetime) : Z :=
  match aggregate_total_masks (period_filter check_date end_date') db with
  | total_masks :: _ => total_masks
  | [] => 0
  end.

(** ** [get_available_dates] *)

(** Python's [range(start, stop)] *)
Definition range (start stop : Z) : list Z := seqZ start (stop - start).

(** The body of [for i in range(1, 31)], with its [break]. *)
Fixpoint scan_dates (db : list Booking) (today : datetime)
    (masks_needed days_needed : Z) (indices : list Z)
    (available_dates : list datetime) : list datetime :=
  match indices with
  | [] => available_dates
  | i :: indices' =>
      let check_date := today + timedelta_days i in
      let end_date' := check_date + timedelta_days days_needed in
      let existing_bookings :=
        count_documents (period_filter check_date end_date') db in
      let available_dates' :=
        if booked_masks db check_date end_date' + masks_needed <=? 2
        then available_dates ++ [check_date]
        else available_dates in
      if 7 <=? Z.of_nat (length available_dates')
      then available_dates'
      else scan_dates db today masks_needed days_needed indices' available_dates'
  end.

Definition get_available_dates (now : datetime) (db : list Booking)
    (masks_needed days_needed : Z) : list datetime :=
  let today := midnight now in
  scan_dates db today masks_needed days_needed (range 1 31) [].

(** ** Program state, exceptions and the handler monad *)

(** The module-level [user_sessions] dictionary (requester id to session
    dictionary) and the [db.bookings] collection. *)
Record state := mkState {
  user_sessions : gmap Z (gmap string Z);
  bookings : list Booking
}.

(** [update.effective_user] / [query.from_user] *)
Record TgUser := mkUser {
  tg_id : Z;
  tg_username : option string;
  tg_first_name : option string
}.

Inductive exn := KeyError.

Inductive result (A : Type) :=
  | Ok (a : A)
  | Raised (e : exn).
Arguments Ok {A} a.
Arguments Raised {A} e.

(** A handler runs on the state and either returns or raises; what it
    wrote to the state before raising stays written. *)
Definition M (A : Type) : Type := state → state * result A.

#[global] Instance M_ret : MRet M := λ A a st, (st, Ok a).
#[global] Instance M_bind : MBind M := λ A B f m st,
  match m st with
  | (st', Ok a) => f a st'
  | (st', Raised e) => (st', Raised e)
  end.

Definition raise {A} (e : exn) : M A := λ st, (st, Raised e).

(** [d[k]] on a dictionary value *)
Definition getitem {K V} `{Countable K} (d : gmap K V) (k : K) : M V :=
  match d !! k with
  | Some v => mret v
  | None => raise KeyError
  end.

Definition get_sessions : M (gmap Z (gmap string Z)) :=
  λ st, (st, Ok (user_sessions st)).

Definition get_bookings : M (list Booking) :=
  λ st, (st, Ok (bookings st)).

(** [user_sessions[user_id] = session] *)
Definition set_session (user_id : Z) (session : gmap string Z) : M unit :=
  λ st, ({| user_sessions := <[user_id := session]> (user_sessions st);
            bookings := bookings st |}, Ok tt).

(** [del user_sessions[user_id]] guarded by [user_id in user_sessions] *)
Definition del_session (user_id : Z) : M unit :=
  λ st, ({| user_sessions := delete user_id (user_sessions st);
            bookings := bookings st |}, Ok tt).

(** [db.bookings.insert_one(doc)] *)
Definition insert_one (doc : Booking) : M unit :=
  λ st, ({| user_sessions := user_sessions st;
            bookings := bookings st ++ [doc] |}, Ok tt).

(** ** Dialogue events and outward messages *)

(** The callback data of an inline button, after the source's dispatch on
    its prefix and its [int(...)] or [strptime(..., "%Y-%m-%d")] of the
    suffix.  A parsed date is a whole number of days since the epoch, at
    midnight UTC.  The operator-only [admin_*] buttons and the [/start]
    and [/admin] commands read the collection and write nothing; they are
    left out. *)
Inductive callback_data :=
  | start_booking
  | masks_ (n : Z)
  | days_ (n : Z)
  | date_ (epoch_day : Z)
  | unmatched.

(** The text payloads the handlers send, by kind and by the values they
    interpolate. *)
Inductive message :=
  | MsgChooseMasks
  | MsgChooseDays (masks_count p1 p2 p3 : Z)
  | MsgSessionExpired
  | MsgNoDates
  | MsgChooseDate (available_dates : list datetime) (price : Z)
  | MsgAskAddress (start_date end_date : datetime)
  | MsgConfirmation (b : Booking)
  | MsgAdminNotification (b : Booking).

(** ** [handle_callback] *)

Definition handle_callback (user : TgUser) (now : datetime)
    (data : callback_data) : M (list message) :=
  let user_id := tg_id user in
  match data with
  | start_booking =>
      mret [MsgChooseMasks]
  | masks_ masks_count =>
      set_session user_id {[ "masks_count" := masks_count ]};;
      row ← getitem PRICES masks_count;
      p1 ← getitem row 1;
      p2 ← getitem row 2;
      p3 ← getitem row 3;
      mret [MsgChooseDays masks_count p1 p2 p3]
  | days_ days_count =>
      sessions ← get_sessions;
      match sessions !! user_id with
      | None => mret [MsgSessionExpired]
      | Some session =>
          let session := <[ "days_count" := days_count ]> session in
          set_session user_id session;;
          masks_count ← getitem session "masks_count";
          db ← get_bookings;
          let available_dates :=
            get_available_dates now db masks_count days_count in
          match available_dates with
          | [] => mret [MsgNoDates]
          | _ =>
              row ← getitem PRICES masks_count;
              price ← getitem row days_count;
              mret [MsgChooseDate available_dates price]
          end
      end
  | date_ epoch_day =>
      let start_date := timedelta_days epoch_day in
      sessions ← get_sessions;
      match sessions !! user_id with
      | None => mret [MsgSessionExpired]
      | Some session =>
          let session := <[ "start_date" := start_date ]> session in
          set_session user_id session;;
          days_count ← getitem session "days_count";
          let end_date' := start_date + timedelta_days days_count in
          mret [MsgAskAddress start_date end_date']
      end
  | unmatched =>
      mret []
  end.

(** ** [handle_text] *)

Definition handle_text (user : TgUser) (now : datetime) (new_id : string)
    (text : string) : M (list message) :=
  let user_id := tg_id user in
  sessions ← get_sessions;
  match sessions !! user_id with
  | None => mret []
  | Some session =>
      match session !! "start_date" with
      | None => mret []
      | Some start_date =>
          let delivery_address := text in
          days_count ← getitem session "days_count";
          masks_count ← getitem session "masks_count";
          let end_date' := start_date + timedelta_days days_count in
          row ← getitem PRICES masks_count;
          price ← getitem row days_count;
          let booking :=
            {| id := new_id;
               user_id := user_id;
               username := tg_username user;
               first_name := tg_first_name user;
               masks_count := masks_count;
               days_count := days_count;
               start_date := start_date;
               end_date := end_date';
               price := price;
               delivery_address := delivery_address;
               status := "pending";
               created_at := now |} in
          insert_one booking;;
          del_session user_id;;
          mret [MsgConfirmation booking; MsgAdminNotification booking]
      end
  end.

(** ** The operator routes [PUT /bookings/{id}/status] and [DELETE /bookings/{id}] *)

Inductive http_error := HTTP_404.

(** [update_one({"id": booking_id}, {"$set": {"status": status}})]: the
    first matching document is updated; the second component is
    [matched_count]. *)
Fixpoint update_one_status (booking_id status' : string) (db : list Booking)
    : list Booking * Z :=
  match db with
  | [] => ([], 0)
  | b :: db' =>
      if String.eqb (id b) booking_id
      then (set_status status' b :: db', 1)
      else let '(db'', n) := update_one_status booking_id status' db' in
           (b :: db'', n)
  end.

(** [delete_one({"id": booking_id})]: the first matching document is
    removed; the second component is [deleted_count]. *)
Fixpoint delete_one (booking_id : string) (db : list Booking)
    : list Booking * Z :=
  match db with
  | [] => ([], 0)
  | b :: db' =>
      if String.eqb (id b) booking_id
      then (db', 1)
      else let '(db'', n) := delete_one booking_id db' in
           (b :: db'', n)
  end.

Definition update_booking_status (booking_id status' : string) (st : state)
    : state * (http_error + string) :=
  let '(db', matched_count) := update_one_status booking_id status' (bookings st) in
  let st' := {| user_sessions := user_sessions st; bookings := db' |} in
  if matched_count =? 0 then (st', inl HTTP_404) else (st', inr "updated").

Definition delete_booking (booking_id : string) (st : state)
    : state * (http_error + string) :=
  let '(db', deleted_count) := delete_one booking_id (bookings st) in
  let st' := {| user_sessions := user_sessions st; bookings := db' |} in
  if deleted_count =? 0 then (st', inl HTTP_404) else (st', inr "deleted").

(** ** Specification-side notions *)

(** Half-open overlap of an existing reservation with the window
    [[w_start, w_end)], restricted to the statuses that hold inventory. *)
Definition overlaps (w_start w_end : datetime) (b : Booking) : bool :=
  status_in active_statuses b &&
  (start_date b <? w_end) && (end_date b >? w_start).

(** The reservation holds inventory at instant [t]. *)
Definition covers (t : datetime) (b : Booking) : bool :=
  status_in active_statuses b &&
  (start_date b <=? t) && (t <? end_date b).

(** Units in use at instant [t]. *)
Definition load (db : list Booking) (t : datetime) : Z :=
  sum_masks (filter (λ b, covers t b = true) db).

(** The data model's reservation: a priced quantity and duration, and
    [endDate = startDate + durationDays]. *)
Definition valid_booking (b : Booking) : Prop :=
  (masks_count b = 1 ∨ masks_count b = 2) ∧
  (days_count b = 1 ∨ days_count b = 2 ∨ days_count b = 3) ∧
  end_date b = start_date b + timedelta_days (days_count b).

(** Strictly ascending sequences of dates. *)
Definition ascending (l : list datetime) : Prop := StronglySorted Z.lt l.

(** The capacity test of one candidate index of the scan. *)
Definition candidate_ok (db : list Booking) (today : datetime)
    (masks_needed days_needed i : Z) : bool :=
  booked_masks db (today + timedelta_days i)
    (today + timedelta_days i + timedelta_days days_needed)
  + masks_needed <=? 2.

(** ** The specification's engine interface *)

Inductive engine_error := InvalidRequest.

(** The configured domain: the quantities and durations [PRICES] prices. *)
Definition in_domain (quantity durationDays : Z) : bool :=
  ((quantity =? 1) || (quantity =? 2)) &&
  ((durationDays =? 1) || (durationDays =? 2) || (durationDays =? 3)).

(** The specification's [FindAvailableStarts] at [horizonDays = 30] and
    [maxResults = 7]: written from the specification, with its domain check
    in front of the scan, to be compared with [get_available_dates]. *)
Definition FindAvailableStarts_spec (asOf : datetime) (db : list Booking)
    (quantity durationDays : Z) : engine_error + list datetime :=
  if in_domain quantity durationDays
  then inr (get_available_dates asOf db quantity durationDays)
  else inl InvalidRequest.

(** ** Shorthands for the handlers' effects *)

(** The state after [user_sessions[uid] = session]. *)
Definition with_session (uid : Z) (session : gmap string Z) (st : state) : state :=
  {| user_sessions := <[uid := session]> (user_sessions st);
     bookings := bookings st |}.

(** The reservation [handle_text] builds. *)
Definition new_booking (user : TgUser) (now : datetime) (new_id text : string)
    (masks days start p : Z) : Booking :=
  {| id := new_id;
     user_id := tg_id user;
     username := tg_username user;
     first_name := tg_first_name user;
     masks_count := masks;
     days_count := days;
     start_date := start;
     end_date := start + timedelta_days days;
     price := p;
     delivery_address := text;
     status := "pending";
     created_at := now |}.


Ltac run_handler :=
  unfold handle_callback, handle_text, mbind, M_bind, mret, M_ret, getitem,
    raise, get_sessions, get_bookings, set_session, del_session, insert_one;
  simpl.

(** ** The server as a transition system *)

Definition empty_state : state := {| user_sessions := ∅; bookings := [] |}.

(** One request served: a button, a text message, or an operator route. *)
Inductive step : state → state → Prop :=
  | step_callback user now data st :
      step st (fst (handle_callback user now data st))
  | step_text user now new_id text st :
      step st (fst (handle_text user now new_id text st))
  | step_update booking_id status' st :
      step st (fst (update_booking_status booking_id status' st))
  | step_delete booking_id st :
      step st (fst (delete_booking booking_id st)).

Definition reachable (st : state) : Prop := rtc step empty_state st.

(** ** Sample data: today is day 19675 of the epoch *)

Definition sample_now : datetime := 1700000000000000.

Definition sample_booking (bid : string) (uid quantity duration epoch_day : Z)
    (st : string) : Booking :=
  {| id := bid; user_id := uid; username := None; first_name := None;
     masks_count := quantity; days_count := duration;
     start_date := timedelta_days epoch_day;
     end_date := timedelta_days epoch_day + timedelta_days duration;
     price := 0; delivery_address := "Addr"; status := st;
     created_at := sample_now |}.

(** Both units taken on days 19676 and 19677 (tomorrow and the day after). *)
Definition sample_db : list Booking :=
  [ sample_booking "A" 1 2 2 19676 "confirmed" ].

(** Both units taken on every day of the horizon, three days at a time. *)
Definition full_db : list Booking :=
  (λ k, sample_booking "F" 1 2 3 (19676 + 3 * k) "pending") <$> seqZ 0 10.

Definition alice : TgUser := mkUser 7 (Some "alice") (Some "Alice").
Definition bob : TgUser := mkUser 8 None (Some "Bob").

Definition sample_state : state :=
  {| user_sessions := ∅; bookings := sample_db |}.

(** A state in the middle of two dialogues. *)
Definition busy_state : state :=
  {| user_sessions :=
       {[ 7 := {[ "masks_count" := 2; "days_count" := 3;
                  "start_date" := timedelta_days 19680 ]};
          8 := {[ "masks_count" := 1; "days_count" := 1 ]} ]};
     bookings := sample_db |}.

(** A requester whose dialogue is complete, on a collection with room. *)
Definition ready_state : state :=
  {| user_sessions :=
       {[ 7 := {[ "masks_count" := 2; "days_count" := 3;
                  "start_date" := timedelta_days 19680 ]} ]};
     bookings := sample_db |}.

(** Two requesters, two units each, are offered the same first date while
    the collection is empty; both choose it and both send an address. *)
Definition race : M (list message) :=
  handle_callback alice sample_now (masks_ 2);;
  handle_callback alice sample_now (days_ 1);;
  handle_callback bob sample_now (masks_ 2);;
  handle_callback bob sample_now (days_ 1);;
  handle_callback alice sample_now (date_ 19676);;
  handle_callback bob sample_now (date_ 19676);;
  handle_text alice sample_now "uuid-1" "Addr 1";;
  handle_text bob sample_now "uuid-2" "Addr 2".

(** ** The range of [datetime] and the precision of the database *)

(** [datetime.min], 0001-01-01T00:00:00, and [datetime.max],
    9999-12-31T23:59:59.999999, as instants. *)
Definition datetime_min : datetime := -62135596800000000.
Definition datetime_max : datetime := 253402300799999999.

(** The largest magnitude of [timedelta(days=n)]. *)
Definition timedelta_max_days : Z := 999999999.

(** [dt + timedelta(days=n)]; [None] is [OverflowError], raised when the
    timedelta cannot be built or the sum leaves the range of [datetime]. *)
Definition add_days (dt : datetime) (n : Z) : option datetime :=
  if (Z.abs n <=? timedelta_max_days)
     && (datetime_min <=? dt + timedelta_days n)
     && (dt + timedelta_days n <=? datetime_max)
  then Some (dt + timedelta_days n)
  else None.

(** A datetime as the database stores and compares it: BSON keeps whole
    milliseconds, the microseconds below are cut off. *)
Definition bson_datetime (dt : datetime) : datetime := dt - dt mod 1000.

(** The first and the last day [strptime(..., "%Y-%m-%d")] can return,
    as days of the epoch: 0001-01-01 and 9999-12-31. *)
Definition epoch_day_min : Z := -719162.
Definition epoch_day_max : Z := 2932896.

(** ** The listing routes [GET /bookings] and [GET /bookings/active] *)

(** [sort(key, 1)] and [sort(key, -1)].  The database leaves the order of
    documents with equal keys open; merge sort fixes one, and no property
    below depends on which. *)
Definition key_le (key : Booking → Z) : relation Booking :=
  λ a b, key a ≤ key b.

Definition key_ge (key : Booking → Z) : relation Booking :=
  λ a b, key b ≤ key a.

#[global] Instance key_le_dec key a b : Decision (key_le key a b) :=
  decide (key a ≤ key b).

#[global] Instance key_ge_dec key a b : Decision (key_ge key a b) :=
  decide (key b ≤ key a).

Definition sort_asc (key : Booking → Z) (l : list Booking) : list Booking :=
  merge_sort (key_le key) l.

Definition sort_desc (key : Booking → Z) (l : list Booking) : list Booking :=
  merge_sort (key_ge key) l.

(** [{"status": {"$in": ["pending", "confirmed"]}, "end_date": {"$gte": today}}];
    the query carries [today] as a BSON datetime. *)
Definition active_filter (today : datetime) (b : Booking) : bool :=
  status_in active_statuses b && (end_date b >=? bson_datetime today).

(** The route [get_bookings] ([GET /api/bookings]):
    [find().sort("created_at", -1).to_list(100)] *)
Definition api_get_bookings (db : list Booking) : list Booking :=
  take 100 (sort_desc created_at db).

(** The route [get_active_bookings] ([GET /api/bookings/active]):
    [find({...}).sort("start_date", 1).to_list(100)], with
    [today = datetime.now(timezone.utc)] (the instant, not its midnight). *)
Definition api_get_active_bookings (now : datetime) (db : list Booking)
    : list Booking :=
  let today := now in
  take 100 (sort_asc start_date
              (filter (λ b, active_filter today b = true) db)).

(** ** The operator's panel: [admin_command] and the [admin_*] buttons *)

(** [f"@{user.username}"]; a user without a username prints as [None]. *)
Definition at_username (user : TgUser) : string :=
  "@" +:+ default "None" (tg_username user).

(** [x or 'Неизвестно'] on an optional string. *)
Definition or_unknown (o : option string) : string :=
  match o with
  | Some s => if String.eqb s "" then "Неизвестно" else s
  | None => "Неизвестно"
  end.

(** One line of the list of the last reservations. *)
Record all_line := mkAllLine {
  al_emoji : string;
  al_start_date : datetime;
  al_masks_count : Z;
  al_price : Z
}.

(** One entry of the list of active reservations. *)
Record active_entry := mkActiveEntry {
  ae_emoji : string;
  ae_start_date : datetime;
  ae_end_date : datetime;
  ae_masks_count : Z;
  ae_price : Z;
  ae_first_name : string
}.

Inductive admin_message :=
  | MsgNoAccess
  | MsgAdminPanel (total_bookings active_bookings : Z)
  | MsgAllBookings (lines : list all_line)
  | MsgActiveBookings (entries : list active_entry)
  | MsgStats (total_bookings monthly_bookings monthly_revenue : Z)
      (month_start today : datetime).

(** The operator is named by the environment variable [ADMIN_USERNAME]. *)
Definition admin_command (admin_username : string) (user : TgUser)
    (now : datetime) (db : list Booking) : admin_message :=
  if negb (String.eqb (at_username user) admin_username)
  then MsgNoAccess
  else
    let today := now in
    let active_bookings := count_documents (active_filter today) db in
    let total_bookings := count_documents (λ _, true) db in
    MsgAdminPanel total_bookings active_bookings.

(** The data of the panel's buttons.  [admin_back], which re-enters
    [admin_command] with the callback query in the place of the update, is
    left out; [admin_other] is any other data with the prefix. *)
Inductive admin_data :=
  | admin_all_bookings
  | admin_active_bookings
  | admin_stats
  | admin_other.

Definition status_emoji_all : gmap string string :=
  {[ "pending" := "⏳"; "confirmed" := "✅";
     "completed" := "✔️"; "cancelled" := "❌" ]}.

Definition status_emoji_active : gmap string string :=
  {[ "pending" := "⏳"; "confirmed" := "✅" ]}.

(** [d.get(key, '❓')] *)
Definition emoji_get (d : gmap string string) (key : string) : string :=
  default "❓" (d !! key).

Fixpoint sum_price (l : list Booking) : Z :=
  match l with
  | [] => 0
  | b :: l' => price b + sum_price l'
  end.

(** [{"created_at": {"$gte": month_start}}] *)
Definition monthly_filter (month_start : datetime) (b : Booking) : bool :=
  created_at b >=? month_start.

(** [{"created_at": {"$gte": month_start}, "status": {"$ne": "cancelled"}}] *)
Definition revenue_filter (month_start : datetime) (b : Booking) : bool :=
  (created_at b >=? month_start) && negb (String.eqb (status b) "cancelled").

(** [$match] then [$group] summing [$price], read as
    [result[0]["total_revenue"] if result else 0]. *)
Definition monthly_revenue (month_start : datetime) (db : list Booking) : Z :=
  match filter (λ b, revenue_filter month_start b = true) db with
  | [] => 0
  | m => sum_price m
  end.

(** The branch [data.startswith("admin_")] of [handle_callback].  The
    first day of the month, [today.replace(day=1, hour=0, ...)], is computed
    by the calendar of the datetime library and is an argument here. *)
Definition handle_admin_callback (admin_username : string) (user : TgUser)
    (now month_start : datetime) (data : admin_data) (db : list Booking)
    : list admin_message :=
  if negb (String.eqb (at_username user) admin_username)
  then [MsgNoAccess]
  else
    match data with
    | admin_all_bookings =>
        let found := take 10 (sort_desc created_at db) in
        [MsgAllBookings
           ((λ b, {| al_emoji := emoji_get status_emoji_all (status b);
                     al_start_date := start_date b;
                     al_masks_count := masks_count b;
                     al_price := price b |}) <$> found)]
    | admin_active_bookings =>
        let today := now in
        let found :=
          take 20 (sort_asc start_date
                     (filter (λ b, active_filter today b = true) db)) in
        [MsgActiveBookings
           ((λ b, {| ae_emoji := emoji_get status_emoji_active (status b);
                     ae_start_date := start_date b;
                     ae_end_date := end_date b;
                     ae_masks_count := masks_count b;
                     ae_price := price b;
                     ae_first_name := or_unknown (first_name b) |}) <$> found)]
    | admin_stats =>
        let today := now in
        let total_bookings := count_documents (λ _, true) db in
        let monthly_bookings :=
          count_documents (monthly_filter month_start) db in
        [MsgStats total_bookings monthly_bookings
           (monthly_revenue month_start db) month_start today]
    | admin_other => []
    end.

(** ** [handle_text] with the two sends that can fail *)

(** Whether [update.message.reply_text] and the [bot.send_message] of
    [send_admin_notification] go through. *)
Record telegram_io := mkIo {
  reply_ok : bool;
  notify_ok : bool
}.

Inductive io_result :=
  | Completed (sent : list message)
  | KeyErrorRaised
  | TelegramErrorRaised.

(** [handle_text] in the order of its statements: the insert, the reply to
    the requester (an error of which leaves the handler), the notification
    (whose errors [send_admin_notification] catches and logs), the removal
    of the session. *)
Definition handle_text_io (io : telegram_io) (user : TgUser) (now : datetime)
    (new_id text : string) (st : state) : state * io_result :=
  let user_id := tg_id user in
  match user_sessions st !! user_id with
  | None => (st, Completed [])
  | Some session =>
      match session !! "start_date" with
      | None => (st, Completed [])
      | Some start_date =>
          match session !! "days_count" with
          | None => (st, KeyErrorRaised)
          | Some days_count =>
          match session !! "masks_count" with
          | None => (st, KeyErrorRaised)
          | Some masks_count =>
          match PRICES !! masks_count with
          | None => (st, KeyErrorRaised)
          | Some row =>
          match row !! days_count with
          | None => (st, KeyErrorRaised)
          | Some price =>
              let booking :=
                {| id := new_id;
                   user_id := user_id;
                   username := tg_username user;
                   first_name := tg_first_name user;
                   masks_count := masks_count;
                   days_count := days_count;
                   start_date := start_date;
                   end_date := start_date + timedelta_days days_count;
                   price := price;
                   delivery_address := text;
                   status := "pending";
                   created_at := now |} in
              let st1 := {| user_sessions := user_sessions st;
                            bookings := bookings st ++ [booking] |} in
              if reply_ok io then
                let notified :=
                  if notify_ok io then [MsgAdminNotification booking] else [] in
                ({| user_sessions := delete user_id (user_sessions st1);
                    bookings := bookings st1 |},
                 Completed (MsgConfirmation booking :: notified))
              else (st1, TelegramErrorRaised)
          end end end end
      end
  end.

(** ** Invariants of the reachable states *)

(** A stored reservation as [handle_text] writes it: priced by [PRICES],
    ending [days_count] days after it starts, starting at a midnight. *)
Definition stored_ok (b : Booking) : Prop :=
  PRICES_get (masks_count b) (days_count b) = Some (price b) ∧
  end_date b = start_date b + timedelta_days (days_count b) ∧
  start_date b mod day = 0.

(** A session holds a quantity, and a start date only at a midnight. *)
Definition session_ok (session : gmap string Z) : Prop :=
  is_Some (session !! "masks_count") ∧
  ∀ d, session !! "start_date" = Some d → d mod day = 0.

Definition state_inv (st : state) : Prop :=
  Forall stored_ok (bookings st) ∧
  ∀ uid session, user_sessions st !! uid = Some session → session_ok session.

(** The quantity a reservation holds at instant [t]. *)
Definition held (t : datetime) (b : Booking) : Z :=
  if covers t b then masks_count b else 0.

(** The dialogue from the duration button on. *)
Definition finish_flow (user : TgUser) (n1 n2 n3 : datetime)
    (days epoch_day : Z) (new_id text : string) : M (list message) :=
  handle_callback user n1 (days_ days);;
  handle_callback user n2 (date_ epoch_day);;
  handle_text user n3 new_id text.

(** The state after one requester's four requests from the start. *)
Definition dialogue_state : state :=
  fst (handle_text alice sample_now "uuid-1" "Addr 1"
    (fst (handle_callback alice sample_now (date_ 19676)
      (fst (handle_callback alice sample_now (days_ 3)
        (fst (handle_callback alice sample_now (masks_ 2) empty_state))))))).

(** ** The handlers with the range of [datetime] and the failing reply *)

(** The definitions above compute dates in [Z] and let every send go
    through.  The ones below follow the same statements and add what can
    go wrong on the way: [OverflowError] where a date leaves the range of
    [datetime], [ValueError] where the data of a date button is no date,
    the error of a reply that is not delivered; and the creation instant
    is stored as the database keeps it. *)
Inductive py_error :=
  | ErrKeyError
  | ErrOverflowError
  | ErrValueError
  | ErrTelegramError.

Inductive outcome (A : Type) :=
  | Done (a : A)
  | Fails (e : py_error).
Arguments Done {A} a.
Arguments Fails {A} e.

Definition of_result {A} (r : result A) : outcome A :=
  match r with
  | Ok a => Done a
  | Raised KeyError => Fails ErrKeyError
  end.

(** The loop of [get_available_dates] with the two additions of lines 93
    and 94 checked. *)
Fixpoint scan_dates_checked (db : list Booking) (today : datetime)
    (masks_needed days_needed : Z) (indices : list Z)
    (available_dates : list datetime) : outcome (list datetime) :=
  match indices with
  | [] => Done available_dates
  | i :: indices' =>
      match add_days today i with
      | None => Fails ErrOverflowError
      | Some check_date =>
          match add_days check_date days_needed with
          | None => Fails ErrOverflowError
          | Some end_date' =>
              let available_dates' :=
                if booked_masks db check_date end_date' + masks_needed <=? 2
                then available_dates ++ [check_date]
                else available_dates in
              if 7 <=? Z.of_nat (length available_dates')
              then Done available_dates'
              else scan_dates_checked db today masks_needed days_needed
                     indices' available_dates'
          end
      end
  end.

Definition get_available_dates_checked (now : datetime) (db : list Booking)
    (masks_needed days_needed : Z) : outcome (list datetime) :=
  let today := midnight now in
  scan_dates_checked db today masks_needed days_needed (range 1 31) [].

(** The dates for which no addition of the scan overflows. *)
Definition scan_in_range (now : datetime) (days_needed : Z) : Prop :=
  Z.abs days_needed ≤ timedelta_max_days ∧
  datetime_min ≤ midnight now + timedelta_days 1 ∧
  midnight now + timedelta_days 30 ≤ datetime_max ∧
  datetime_min ≤ midnight now + timedelta_days 1 + timedelta_days days_needed ∧
  midnight now + timedelta_days 30 + timedelta_days days_needed ≤ datetime_max.

(** [handle_callback]: the branches without date arithmetic are those
    above; [days_] runs the checked scan, [date_] parses its date and adds
    the duration to it. *)
Definition handle_callback_checked (user : TgUser) (now : datetime)
    (data : callback_data) (st : state) : state * outcome (list message) :=
  let user_id := tg_id user in
  match data with
  | days_ days_count =>
      match user_sessions st !! user_id with
      | None => (st, Done [MsgSessionExpired])
      | Some session =>
          let session := <[ "days_count" := days_count ]> session in
          let st := {| user_sessions := <[user_id := session]> (user_sessions st);
                       bookings := bookings st |} in
          match session !! "masks_count" with
          | None => (st, Fails ErrKeyError)
          | Some masks_count =>
              match get_available_dates_checked now (bookings st)
                      masks_count days_count with
              | Fails e => (st, Fails e)
              | Done [] => (st, Done [MsgNoDates])
              | Done available_dates =>
                  match PRICES !! masks_count with
                  | None => (st, Fails ErrKeyError)
                  | Some row =>
                      match row !! days_count with
                      | None => (st, Fails ErrKeyError)
                      | Some price =>
                          (st, Done [MsgChooseDate available_dates price])
                      end
                  end
              end
          end
      end
  | date_ epoch_day =>
      if (epoch_day_min <=? epoch_day) && (epoch_day <=? epoch_day_max) then
        let start_date := timedelta_days epoch_day in
        match user_sessions st !! user_id with
        | None => (st, Done [MsgSessionExpired])
        | Some session =>
            let session := <[ "start_date" := start_date ]> session in
            let st := {| user_sessions := <[user_id := session]> (user_sessions st);
                         bookings := bookings st |} in
            match session !! "days_count" with
            | None => (st, Fails ErrKeyError)
            | Some days_count =>
                match add_days start_date days_count with
                | None => (st, Fails ErrOverflowError)
                | Some end_date' =>
                    (st, Done [MsgAskAddress start_date end_date'])
                end
            end
        end
      else (st, Fails ErrValueError)
  | _ =>
      let '(st', r) := handle_callback user now data st in (st', of_result r)
  end.

(** The document of a reservation as [insert_one] stores it: its three
    datetimes are encoded as BSON datetimes. *)
Definition stored (b : Booking) : Booking :=
  {| id := id b; user_id := user_id b; username := username b;
     first_name := first_name b; masks_count := masks_count b;
     days_count := days_count b;
     start_date := bson_datetime (start_date b);
     end_date := bson_datetime (end_date b);
     price := price b;
     delivery_address := delivery_address b; status := status b;
     created_at := bson_datetime (created_at b) |}.

(** [handle_text] in the order of its statements: the reads of the
    session, the end date (line 397), the price (line 398), the insert,
    the reply to the requester, the notification whose errors are caught,
    the removal of the session. *)
Definition handle_text_checked (io : telegram_io) (user : TgUser)
    (now : datetime) (new_id text : string) (st : state)
    : state * outcome (list message) :=
  let user_id := tg_id user in
  match user_sessions st !! user_id with
  | None => (st, Done [])
  | Some session =>
      match session !! "start_date" with
      | None => (st, Done [])
      | Some start_date =>
          match session !! "days_count" with
          | None => (st, Fails ErrKeyError)
          | Some days_count =>
          match session !! "masks_count" with
          | None => (st, Fails ErrKeyError)
          | Some masks_count =>
          match add_days start_date days_count with
          | None => (st, Fails ErrOverflowError)
          | Some end_date' =>
          match PRICES !! masks_count with
          | None => (st, Fails ErrKeyError)
          | Some row =>
          match row !! days_count with
          | None => (st, Fails ErrKeyError)
          | Some price =>
              let booking :=
                {| id := new_id;
                   user_id := user_id;
                   username := tg_username user;
                   first_name := tg_first_name user;
                   masks_count := masks_count;
                   days_count := days_count;
                   start_date := start_date;
                   end_date := end_date';
                   price := price;
                   delivery_address := text;
                   status := "pending";
                   created_at := now |} in
              let st1 := {| user_sessions := user_sessions st;
                            bookings := bookings st ++ [stored booking] |} in
              if reply_ok io then
                let notified :=
                  if notify_ok io then [MsgAdminNotification booking] else [] in
                ({| user_sessions := delete user_id (user_sessions st1);
                    bookings := bookings st1 |},
                 Done (MsgConfirmation booking :: notified))
              else (st1, Fails ErrTelegramError)
          end end end end end
      end
  end.

(** One handler after another: the second runs when the first returned. *)
Definition and_then {A B} (f : state → state * outcome A)
    (g : state → state * outcome B) (st : state) : state * outcome B :=
  match f st with
  | (st', Done _) => g st'
  | (st', Fails e) => (st', Fails e)
  end.

(** The dialogue from the duration button on, with the checked handlers. *)
Definition finish_flow_checked (io : telegram_io) (user : TgUser)
    (n1 n2 n3 : datetime) (days epoch_day : Z) (new_id text : string)
    : state → state * outcome (list message) :=
  and_then (handle_callback_checked user n1 (days_ days))
    (and_then (handle_callback_checked user n2 (date_ epoch_day))
       (handle_text_checked io user n3 new_id text)).

(** A session whose date is the last day of the calendar. *)
Definition last_day_state : state :=
  {| user_sessions :=
       {[ 7 := {[ "masks_count" := 1; "days_count" := 1;
                  "start_date" := timedelta_days epoch_day_max ]} ]};
     bookings := sample_db |}.

(** * Properties *)

(** ** Sums over query results *)

Lemma sum_masks_app l1 l2 : sum_masks (l1 ++ l2) = sum_masks l1 + sum_masks l2.
Proof. induction l1 as [|b l1 IH]; simpl; lia. Qed.

Lemma booked_masks_sum db c e :
  booked_masks db c e = sum_masks (filter (λ b, period_filter c e b = true) db).
Proof.
  unfold booked_masks, aggregate_total_masks.
  destruct (filter _ db); reflexivity.
Qed.

Lemma sum_masks_filter_nonneg (g : Booking → bool) (l : list Booking) :
  (∀ b, b ∈ l → 0 ≤ masks_count b) →
  0 ≤ sum_masks (filter (λ b, g b = true) l).
Proof.
  induction l as [|x l IH]; intros Hpos; [reflexivity|].
  assert (0 ≤ masks_count x) by (apply Hpos; set_solver).
  assert (0 ≤ sum_masks (filter (λ b, g b = true) l))
    by (apply IH; intros; apply Hpos; set_solver).
  rewrite filter_cons. destruct (decide (g x = true)); simpl; lia.
Qed.

Lemma sum_masks_filter_mono (f g : Booking → bool) (l : list Booking) :
  (∀ b, b ∈ l → 0 ≤ masks_count b) →
  (∀ b, b ∈ l → f b = true → g b = true) →
  sum_masks (filter (λ b, f b = true) l) ≤ sum_masks (filter (λ b, g b = true) l).
Proof.
  induction l as [|b l IH]; intros Hpos Himp; [reflexivity|].
  assert (IH' : sum_masks (filter (λ b, f b = true) l)
                ≤ sum_masks (filter (λ b, g b = true) l)).
  { apply IH; intros; [apply Hpos | apply Himp]; set_solver. }
  assert (Hb : 0 ≤ masks_count b) by (apply Hpos; set_solver).
  assert (Hfg : f b = true → g b = true) by (apply Himp; set_solver).
  assert (Hg : 0 ≤ sum_masks (filter (λ b, g b = true) l)).
  { apply sum_masks_filter_nonneg. intros; apply Hpos; set_solver. }
  rewrite !filter_cons.
  destruct (decide (f b = true)) as [Hf|Hf], (decide (g b = true)) as [Hgb|Hgb];
    simpl; try lia.
  exfalso; auto.
Qed.

Lemma sum_masks_filter_ext (f g : Booking → bool) (l : list Booking) :
  (∀ b, b ∈ l → f b = g b) →
  sum_masks (filter (λ b, f b = true) l) = sum_masks (filter (λ b, g b = true) l).
Proof.
  induction l as [|b l IH]; intros Hext; [reflexivity|].
  rewrite !filter_cons, (Hext b) by set_solver.
  destruct (decide (g b = true)); simpl; rewrite IH; auto;
    intros; apply Hext; set_solver.
Qed.

(** ** The interval test of the query *)

Lemma period_filter_overlaps c e b :
  start_date b < end_date b → c < e →
  period_filter c e b = overlaps c e b.
Proof.
  intros Hb Hw. unfold period_filter, overlaps.
  destruct (status_in active_statuses b); simpl; [|reflexivity].
  apply eq_true_iff_eq.
  rewrite !orb_true_iff, !andb_true_iff, !Z.ltb_lt, !Z.gtb_gt, !Z.geb_ge, !Z.leb_le.
  lia.
Qed.

Lemma covers_period_filter t c e b :
  c ≤ t < e → covers t b = true → period_filter c e b = true.
Proof.
  unfold covers, period_filter. intros Ht.
  destruct (status_in active_statuses b); simpl; [|discriminate].
  rewrite !orb_true_iff, !andb_true_iff, !Z.ltb_lt, !Z.gtb_gt, !Z.geb_ge, !Z.leb_le.
  lia.
Qed.

Lemma day_pos : 0 < day.
Proof. reflexivity. Qed.

Lemma window_nonempty c days_needed :
  0 < days_needed → c < c + timedelta_days days_needed.
Proof. unfold timedelta_days. pose proof day_pos. nia. Qed.

(** ** The scan loop *)

(** The loop with its [break] returns the first seven candidates that pass
    the capacity test, in the order of the scan. *)
Lemma scan_dates_take db today q dur indices acc :
  (length acc < 7)%nat →
  scan_dates db today q dur indices acc =
  acc ++ take (7 - length acc)
           ((λ i, today + timedelta_days i) <$>
            filter (λ i, candidate_ok db today q dur i = true) indices).
Proof.
  revert acc. induction indices as [|i indices IH]; intros acc Hacc.
  - simpl. rewrite take_nil, app_nil_r. reflexivity.
  - simpl scan_dates. rewrite filter_cons. fold (candidate_ok db today q dur i).
    destruct (candidate_ok db today q dur i) eqn:Hok.
    + destruct (decide (true = true)) as [_|]; [|done].
      rewrite fmap_cons, length_app. simpl length.
      destruct (7 <=? Z.of_nat (length acc + 1)) eqn:Hfull.
      * apply Z.leb_le in Hfull.
        replace (7 - length acc)%nat with 1%nat by lia.
        simpl. rewrite take_0. reflexivity.
      * apply Z.leb_gt in Hfull.
        rewrite IH by (rewrite length_app; simpl; lia).
        rewrite length_app. simpl length.
        replace (7 - length acc)%nat with (S (7 - (length acc + 1)))%nat by lia.
        simpl. rewrite <- app_assoc. reflexivity.
    + destruct (decide (false = true)) as [|_]; [done|].
      destruct (7 <=? Z.of_nat (length acc)) eqn:Hfull.
      * apply Z.leb_le in Hfull. lia.
      * apply IH. assumption.
Qed.

Lemma get_available_dates_take now db q dur :
  get_available_dates now db q dur =
  take 7 ((λ i, midnight now + timedelta_days i) <$>
          filter (λ i, candidate_ok db (midnight now) q dur i = true) (range 1 31)).
Proof.
  unfold get_available_dates. rewrite scan_dates_take by (simpl; lia).
  reflexivity.
Qed.

(** Every returned date is a scanned candidate that passed the test. *)
Lemma get_available_dates_elem now db q dur d :
  d ∈ get_available_dates now db q dur →
  ∃ i, 1 ≤ i ≤ 30 ∧ d = midnight now + timedelta_days i ∧
       booked_masks db d (d + timedelta_days dur) + q ≤ 2.
Proof.
  rewrite get_available_dates_take. intros Hd.
  apply subseteq_take in Hd.
  apply list_elem_of_fmap in Hd as (i & -> & Hi).
  apply list_elem_of_filter in Hi as [Hok Hi].
  unfold range in Hi. apply elem_of_seqZ in Hi.
  exists i. split; [lia|]. split; [reflexivity|].
  unfold candidate_ok in Hok. apply Z.leb_le in Hok. exact Hok.
Qed.

Lemma midnight_bounds now : midnight now ≤ now < midnight now + day.
Proof.
  unfold midnight. pose proof (Z.mod_pos_bound now day day_pos). lia.
Qed.

Lemma midnight_whole_days now : midnight now = timedelta_days (now / day).
Proof.
  unfold midnight, timedelta_days.
  pose proof (Z.div_mod now day). pose proof day_pos. lia.
Qed.

Lemma StronglySorted_filter_lt (P : Z → Prop) `{∀ x, Decision (P x)} (l : list Z) :
  StronglySorted Z.lt l → StronglySorted Z.lt (filter P l).
Proof.
  induction 1 as [|x l Hl IH Hx]; [constructor|].
  rewrite filter_cons. destruct (decide (P x)); [|assumption].
  constructor; [assumption|].
  rewrite Forall_forall in *. intros y Hy.
  apply list_elem_of_filter in Hy as [_ Hy]. auto.
Qed.

Lemma StronglySorted_take_lt (n : nat) (l : list Z) :
  StronglySorted Z.lt l → StronglySorted Z.lt (take n l).
Proof.
  intros Hl. rewrite <- (take_drop n l) in Hl.
  eapply StronglySorted_app_1_l. exact Hl.
Qed.

Lemma range_ascending a b : StronglySorted Z.lt (range a b).
Proof.
  unfold range. destruct (decide (0 ≤ b - a)) as [Hn|Hn].
  - rewrite <- (Z2Nat.id (b - a)) by assumption.
    generalize (Z.to_nat (b - a)) as n. clear. intros n. revert a.
    induction n as [|n IH]; intros a.
    + constructor.
    + rewrite seqZ_cons by lia. constructor.
      * replace (Z.pred (Z.of_nat (S n))) with (Z.of_nat n) by lia. apply IH.
      * rewrite Forall_forall. intros y Hy. apply elem_of_seqZ in Hy. lia.
  - rewrite seqZ_nil by lia. constructor.
Qed.

Lemma ascending_NoDup (l : list Z) : StronglySorted Z.lt l → NoDup l.
Proof.
  induction 1 as [|x l Hl IH Hx]; constructor; [|assumption].
  intros Hin. rewrite Forall_forall in Hx. specialize (Hx x Hin). lia.
Qed.

Lemma get_available_dates_ascending now db q dur :
  StronglySorted Z.lt (get_available_dates now db q dur).
Proof.
  rewrite get_available_dates_take.
  apply StronglySorted_take_lt.
  apply StronglySorted_fmap with (R1 := Z.lt).
  - intros x y Hxy. unfold timedelta_days. pose proof day_pos. nia.
  - apply StronglySorted_filter_lt, range_ascending.
Qed.

Lemma filter_fmap_comm {A B} (f : A → B) (P : B → Prop) `{∀ y, Decision (P y)}
    (l : list A) :
  filter P (f <$> l) = f <$> filter (λ x, P (f x)) l.
Proof.
  induction l as [|x l IH]; [reflexivity|].
  rewrite fmap_cons, !filter_cons, IH.
  destruct (decide (P (f x))); reflexivity.
Qed.

Lemma status_in_active b :
  status_in active_statuses b = true ↔
  status b = "pending" ∨ status b = "confirmed".
Proof.
  unfold status_in, active_statuses. simpl.
  rewrite !orb_true_iff, !String.eqb_eq. intuition discriminate.
Qed.

Lemma overlaps_spec c e b :
  overlaps c e b = true ↔
  (status b = "pending" ∨ status b = "confirmed") ∧
  start_date b < e ∧ end_date b > c.
Proof.
  unfold overlaps.
  rewrite !andb_true_iff, status_in_active, Z.ltb_lt, Z.gtb_gt. tauto.
Qed.

(** ** The scan on sample data *)

Example sample_today : midnight sample_now = timedelta_days 19675.
Proof. reflexivity. Qed.

(** One unit for two days: tomorrow and the day after are excluded, the
    day the stored reservation ends is offered. *)
Example sample_scan :
  get_available_dates sample_now sample_db 1 2 =
  timedelta_days <$> [19678; 19679; 19680; 19681; 19682; 19683; 19684].
Proof. vm_compute. reflexivity. Qed.

Example sample_scan_full :
  get_available_dates sample_now sample_db 2 3 =
  timedelta_days <$> [19678; 19679; 19680; 19681; 19682; 19683; 19684].
Proof. vm_compute. reflexivity. Qed.

Example sample_scan_cancelled :
  get_available_dates sample_now
    [ sample_booking "A" 1 2 2 19676 "cancelled" ] 1 2 =
  timedelta_days <$> [19676; 19677; 19678; 19679; 19680; 19681; 19682].
Proof. vm_compute. reflexivity. Qed.

Example sample_scan_none : get_available_dates sample_now full_db 1 1 = [].
Proof. vm_compute. reflexivity. Qed.

(** The specification's scenario: both units reserved on days 10 and 11
    from today; one unit for two days is refused on days 9, 10 and 11 (the
    window of day 9 reaches day 10) and offered from day 12 on. *)
Example spec_scenario :
  get_available_dates sample_now
    [ sample_booking "A" 1 2 2 19685 "pending" ] 1 2 =
  timedelta_days <$> [19676; 19677; 19678; 19679; 19680; 19681; 19682] ∧
  get_available_dates sample_now
    ([ sample_booking "A" 1 2 2 19685 "pending" ] ++
     ((λ k, sample_booking "B" 2 2 1 (19676 + k) "confirmed") <$> seqZ 0 8)) 1 2 =
  timedelta_days <$> [19687; 19688; 19689; 19690; 19691; 19692; 19693].
Proof. split; vm_compute; reflexivity. Qed.

(** ** Claims on the availability scan *)

(** C4. The interval test of [get_available_dates] is half-open overlap:
    for a window of positive length and stored reservations that end after
    they start, a reservation that ends exactly on the candidate date is
    not counted, one that starts exactly at the end of the window is not
    counted, and the counted reservations are exactly the pending or
    confirmed ones with [start < window end] and [end > window start]; the
    scan offers the first seven candidates whose overlapping quantity
    leaves room for the request. *)
Theorem period_filter_half_open (now : datetime) (db : list Booking)
    (masks_needed days_needed : Z) :
  0 < days_needed →
  (∀ b, b ∈ db → start_date b < end_date b) →
  (∀ check_date b, b ∈ db →
     let end_date' := check_date + timedelta_days days_needed in
     (end_date b = check_date → period_filter check_date end_date' b = false) ∧
     (start_date b = end_date' → period_filter check_date end_date' b = false) ∧
     (period_filter check_date end_date' b = true ↔
        (status b = "pending" ∨ status b = "confirmed") ∧
        start_date b < end_date' ∧ end_date b > check_date)) ∧
  (∀ check_date,
     let end_date' := check_date + timedelta_days days_needed in
     booked_masks db check_date end_date' =
     sum_masks (filter (λ b, overlaps check_date end_date' b = true) db)) ∧
  get_available_dates now db masks_needed days_needed =
  take 7 (filter
            (λ d, sum_masks (filter
                    (λ b, overlaps d (d + timedelta_days days_needed) b = true) db)
                  + masks_needed ≤ 2)
            ((λ i, midnight now + timedelta_days i) <$> range 1 31)).
Proof.
  intros Hdays Hdb.
  assert (Hpf : ∀ c b, b ∈ db →
            period_filter c (c + timedelta_days days_needed) b
            = overlaps c (c + timedelta_days days_needed) b).
  { intros c b Hb. apply period_filter_overlaps; [auto|].
    apply window_nonempty; assumption. }
  assert (Hbm : ∀ c, booked_masks db c (c + timedelta_days days_needed) =
            sum_masks (filter
              (λ b, overlaps c (c + timedelta_days days_needed) b = true) db)).
  { intros c. rewrite booked_masks_sum. apply sum_masks_filter_ext.
    intros b Hb. apply Hpf, Hb. }
  split; [|split].
  - intros c b Hb. simpl. rewrite (Hpf c b Hb).
    pose proof (window_nonempty c days_needed Hdays) as Hw.
    pose proof (Hdb b Hb) as Hlt.
    split; [|split].
    + intros He. apply not_true_is_false. rewrite overlaps_spec. lia.
    + intros Hs. apply not_true_is_false. rewrite overlaps_spec. lia.
    + apply overlaps_spec.
  - intros c. apply Hbm.
  - rewrite get_available_dates_take, filter_fmap_comm. do 2 f_equal.
    apply list_filter_iff. intros i. unfold candidate_ok.
    rewrite Z.leb_le, Hbm. reflexivity.
Qed.

Lemma period_filter_half_open_witness :
  period_filter (timedelta_days 19678)
    (timedelta_days 19678 + timedelta_days 2)
    (sample_booking "A" 1 2 2 19676 "confirmed") = false.
Proof.
  pose proof (period_filter_half_open sample_now sample_db 1 2) as H.
  assert (H1 : 0 < 2) by lia.
  assert (H2 : ∀ b, b ∈ sample_db → start_date b < end_date b).
  { intros b Hb. apply list_elem_of_singleton in Hb. subst b. vm_compute. reflexivity. }
  destruct (H H1 H2) as [Hb _].
  destruct (Hb (timedelta_days 19678)
              (sample_booking "A" 1 2 2 19676 "confirmed")
              (list_elem_of_here _ _)) as [Hadj _].
  apply Hadj. reflexivity.
Defined.

Lemma load_app db1 db2 t : load (db1 ++ db2) t = load db1 t + load db2 t.
Proof. unfold load. rewrite filter_app. apply sum_masks_app. Qed.

Lemma load_singleton b t :
  load [b] t = if covers t b then masks_count b else 0.
Proof.
  unfold load. rewrite filter_cons, filter_nil.
  destruct (covers t b); simpl; [lia | reflexivity].
Qed.

(** Units in use at an instant of the window are among those the query counts. *)
Lemma load_le_booked db c e t :
  (∀ b, b ∈ db → 0 ≤ masks_count b) →
  c ≤ t < e → load db t ≤ booked_masks db c e.
Proof.
  intros Hpos Ht. rewrite booked_masks_sum. unfold load.
  apply sum_masks_filter_mono; [assumption|].
  intros b _. apply covers_period_filter, Ht.
Qed.

(** C2. For every set of stored reservations (quantities are not
    negative), every requested quantity and duration and every date [d]
    returned by [get_available_dates], at every instant [t] of
    [[d, d + duration)] the units in use plus the requested quantity are at
    most 2; so the set extended with a pending reservation of that quantity
    over that window has at most 2 units in use at [t]. *)
Theorem offered_date_keeps_capacity (now : datetime) (db : list Booking)
    (masks_needed days_needed : Z) (d : datetime) :
  (∀ b, b ∈ db → 0 ≤ masks_count b) →
  d ∈ get_available_dates now db masks_needed days_needed →
  ∀ t, d ≤ t < d + timedelta_days days_needed →
    load db t + masks_needed ≤ 2 ∧
    ∀ new, masks_count new = masks_needed →
           start_date new = d →
           end_date new = d + timedelta_days days_needed →
           status new = "pending" →
           load (db ++ [new]) t ≤ 2.
Proof.
  intros Hpos Hd t Ht.
  apply get_available_dates_elem in Hd as (i & _ & _ & Hcap).
  pose proof (load_le_booked db d (d + timedelta_days days_needed) t Hpos Ht) as Hle.
  split; [lia|].
  intros new Hq Hs He Hst.
  assert (Hc : covers t new = true).
  { unfold covers.
    rewrite !andb_true_iff, status_in_active, Z.leb_le, Z.ltb_lt. intuition lia. }
  rewrite load_app, load_singleton, Hc. lia.
Qed.

Lemma offered_date_keeps_capacity_witness :
  load sample_db (timedelta_days 19678) + 1 ≤ 2.
Proof.
  refine (proj1 (offered_date_keeps_capacity sample_now sample_db 1 2
                   (timedelta_days 19678) _ _ (timedelta_days 19678) _)).
  - intros b Hb. apply list_elem_of_singleton in Hb. subst b. vm_compute. discriminate.
  - rewrite sample_scan. apply list_elem_of_here.
  - vm_compute. split; [discriminate | reflexivity].
Defined.

(** C6, as stated, fails: a duration of 7 days and a quantity of 0 are
    outside the domain, and [get_available_dates] scans and returns seven
    dates; a quantity of 3 gets the empty list, not [InvalidRequest]. *)
Lemma out_of_domain_is_scanned :
  in_domain 0 7 = false ∧
  get_available_dates sample_now sample_db 0 7 =
    timedelta_days <$> [19676; 19677; 19678; 19679; 19680; 19681; 19682] ∧
  inr (get_available_dates sample_now sample_db 0 7)
    ≠ FindAvailableStarts_spec sample_now sample_db 0 7 ∧
  in_domain 3 1 = false ∧
  get_available_dates sample_now sample_db 3 1 = [] ∧
  inr (get_available_dates sample_now sample_db 3 1)
    ≠ FindAvailableStarts_spec sample_now sample_db 3 1.
Proof.
  repeat split; try (vm_compute; reflexivity); vm_compute; discriminate.
Qed.

(** C7. For every stored set and every quantity and duration (so for
    those of the domain), [get_available_dates] returns a strictly
    ascending sequence, without duplicates, of at most 7 dates; each is
    after today's midnight and after the current instant, and at most 30
    days after either; when no candidate of the 30 days passes the capacity
    test the result is the empty list. *)
Theorem get_available_dates_shape (now : datetime) (db : list Booking)
    (masks_needed days_needed : Z) :
  let dates := get_available_dates now db masks_needed days_needed in
  ascending dates ∧ NoDup dates ∧ (length dates ≤ 7)%nat ∧
  (∀ d, d ∈ dates →
     midnight now < d ≤ midnight now + timedelta_days 30 ∧
     now < d ≤ now + timedelta_days 30) ∧
  ((∀ i, 1 ≤ i ≤ 30 →
      let d := midnight now + timedelta_days i in
      ¬ booked_masks db d (d + timedelta_days days_needed) + masks_needed ≤ 2) →
   dates = []).
Proof.
  intros dates. subst dates.
  pose proof (get_available_dates_ascending now db masks_needed days_needed) as Hs.
  split; [exact Hs|]. split; [apply ascending_NoDup, Hs|]. split; [|split].
  - rewrite get_available_dates_take, length_take. lia.
  - intros d Hd. apply get_available_dates_elem in Hd as (i & Hi & -> & _).
    pose proof (midnight_bounds now). pose proof day_pos.
    unfold timedelta_days. nia.
  - intros Hnone. rewrite get_available_dates_take.
    destruct (filter _ (range 1 31)) as [|i l] eqn:Hf; [reflexivity|].
    assert (Hi : i ∈ filter
              (λ i, candidate_ok db (midnight now) masks_needed days_needed i = true)
              (range 1 31)) by (rewrite Hf; apply list_elem_of_here).
    apply list_elem_of_filter in Hi as [Hok Hi].
    unfold range in Hi. apply elem_of_seqZ in Hi.
    unfold candidate_ok in Hok. apply Z.leb_le in Hok.
    exfalso. apply (Hnone i); [lia | exact Hok].
Qed.

(** ** Claims on the operator routes *)

Lemma update_one_status_unmatched bid s db :
  (∀ b, b ∈ db → id b ≠ bid) → update_one_status bid s db = (db, 0).
Proof.
  induction db as [|b db IH]; intros Hno; [reflexivity|].
  simpl. destruct (String.eqb_spec (id b) bid) as [Heq|_].
  - exfalso. apply (Hno b); [apply list_elem_of_here | exact Heq].
  - rewrite IH; [reflexivity|]. intros b' Hb'. apply Hno. set_solver.
Qed.

Lemma delete_one_unmatched bid db :
  (∀ b, b ∈ db → id b ≠ bid) → delete_one bid db = (db, 0).
Proof.
  induction db as [|b db IH]; intros Hno; [reflexivity|].
  simpl. destruct (String.eqb_spec (id b) bid) as [Heq|_].
  - exfalso. apply (Hno b); [apply list_elem_of_here | exact Heq].
  - rewrite IH; [reflexivity|]. intros b' Hb'. apply Hno. set_solver.
Qed.

(** The first document with the identifier is the one updated. *)
Lemma update_one_status_matched bid s db :
  (∃ b, b ∈ db ∧ id b = bid) →
  ∃ (i : nat) (b : Booking),
    db !! i = Some b ∧ id b = bid ∧
    (∀ (j : nat) b', (j < i)%nat → db !! j = Some b' → id b' ≠ bid) ∧
    update_one_status bid s db = (<[i := set_status s b]> db, 1).
Proof.
  induction db as [|x db IH]; intros (b & Hb & Hid).
  - apply elem_of_nil in Hb. destruct Hb.
  - simpl. destruct (String.eqb_spec (id x) bid) as [Heq|Hne].
    + exists 0%nat, x. repeat split; auto. intros j b' Hj. lia.
    + destruct IH as (i & b0 & Hi & Hid0 & Hfirst & Hupd).
      { exists b. split; [|exact Hid]. apply elem_of_cons in Hb as [->|Hb]; [|exact Hb].
        contradiction. }
      exists (S i), b0. rewrite Hupd. repeat split; auto.
      intros [|j] b' Hj Hl; simpl in Hl.
      * injection Hl as <-. exact Hne.
      * apply (Hfirst j b'); [lia | exact Hl].
Qed.

(** C8. On an identifier that no stored reservation carries,
    [update_booking_status] answers 404 and [delete_booking] answers 404,
    and neither changes the collection (nor anything else of the state). *)
Theorem unknown_id_not_found (st : state) (booking_id : string) :
  (∀ b, b ∈ bookings st → id b ≠ booking_id) →
  (∀ status', update_booking_status booking_id status' st = (st, inl HTTP_404)) ∧
  delete_booking booking_id st = (st, inl HTTP_404).
Proof.
  intros Hno. destruct st as [sessions db]. simpl in Hno.
  unfold update_booking_status, delete_booking. simpl.
  split.
  - intros s. rewrite (update_one_status_unmatched _ _ _ Hno). reflexivity.
  - rewrite (delete_one_unmatched _ _ Hno). reflexivity.
Qed.

Lemma unknown_id_not_found_witness :
  update_booking_status "non-existent-id" "confirmed" sample_state
    = (sample_state, inl HTTP_404) ∧
  delete_booking "non-existent-id" sample_state = (sample_state, inl HTTP_404).
Proof.
  destruct (unknown_id_not_found sample_state "non-existent-id") as [Hu Hd].
  - intros b Hb. apply list_elem_of_singleton in Hb. subst b. discriminate.
  - split; [apply Hu | exact Hd].
Defined.

(** C9. For every identifier carried by a stored reservation and every
    string [s], in the documented status set or not,
    [update_booking_status] succeeds and the collection is the old one with
    the (first) reservation of that identifier carrying status [s]: its
    other fields, every other reservation and the sessions are unchanged.
    No value of [s] and no previous status is refused. *)
Theorem update_booking_status_overwrites (st : state) (booking_id s : string) :
  (∃ b, b ∈ bookings st ∧ id b = booking_id) →
  ∃ (i : nat) (b : Booking),
    bookings st !! i = Some b ∧ id b = booking_id ∧
    (∀ (j : nat) b', (j < i)%nat → bookings st !! j = Some b' → id b' ≠ booking_id) ∧
    let b' := set_status s b in
    let st' := {| user_sessions := user_sessions st;
                  bookings := <[i := b']> (bookings st) |} in
    update_booking_status booking_id s st = (st', inr "updated") ∧
    bookings st' !! i = Some b' ∧
    status b' = s ∧
    (id b', user_id b', username b', first_name b', masks_count b',
     days_count b', start_date b', end_date b', price b',
     delivery_address b', created_at b')
    = (id b, user_id b, username b, first_name b, masks_count b,
       days_count b, start_date b, end_date b, price b,
       delivery_address b, created_at b) ∧
    length (bookings st') = length (bookings st) ∧
    ∀ j : nat, j ≠ i → bookings st' !! j = bookings st !! j.
Proof.
  intros Hex.
  destruct (update_one_status_matched booking_id s (bookings st) Hex)
    as (i & b & Hi & Hid & Hfirst & Hupd).
  exists i, b. split; [exact Hi|]. split; [exact Hid|]. split; [exact Hfirst|].
  simpl. unfold update_booking_status. rewrite Hupd. simpl.
  split; [reflexivity|]. split.
  { apply list_lookup_insert_eq. eapply lookup_lt_Some, Hi. }
  split; [reflexivity|]. split; [reflexivity|]. split.
  { apply length_insert. }
  intros j Hj. apply list_lookup_insert_ne. auto.
Qed.

Lemma update_booking_status_overwrites_witness :
  fst (update_booking_status "A" "no such status" sample_state)
  = {| user_sessions := ∅;
       bookings := [ sample_booking "A" 1 2 2 19676 "no such status" ] |}.
Proof.
  destruct (update_booking_status_overwrites sample_state "A" "no such status")
    as (i & b & Hi & Hid & Hfirst & Hupd & _).
  - exists (sample_booking "A" 1 2 2 19676 "confirmed").
    split; [apply list_elem_of_here | reflexivity].
  - rewrite Hupd. destruct i as [|i]; [|discriminate Hi].
    injection Hi as <-. reflexivity.
Defined.

(** ** The dialogue handlers, step by step *)

Lemma PRICES_get_Some masks days p :
  PRICES_get masks days = Some p ↔
  ∃ row, PRICES !! masks = Some row ∧ row !! days = Some p.
Proof.
  unfold PRICES_get. destruct (PRICES !! masks) as [row|]; simpl.
  - split; [intros H; exists row; auto | intros (r & [= <-] & H); exact H].
  - split; [discriminate | intros (r & H & _); discriminate].
Qed.

Lemma handle_callback_masks_state user now n st :
  fst (handle_callback user now (masks_ n) st)
  = with_session (tg_id user) {[ "masks_count" := n ]} st.
Proof.
  run_handler.
  destruct (PRICES !! n) as [row|]; simpl; [|reflexivity].
  destruct (row !! 1); simpl; [|reflexivity].
  destruct (row !! 2); simpl; [|reflexivity].
  destruct (row !! 3); reflexivity.
Qed.


Lemma handle_callback_days_offer user now n session masks p st :
  user_sessions st !! tg_id user = Some session →
  session !! "masks_count" = Some masks →
  PRICES_get masks n = Some p →
  handle_callback user now (days_ n) st
  = (with_session (tg_id user) (<[ "days_count" := n ]> session) st,
     Ok match get_available_dates now (bookings st) masks n with
        | [] => [MsgNoDates]
        | dates => [MsgChooseDate dates p]
        end).
Proof.
  intros Hs Hm Hp. apply PRICES_get_Some in Hp as (row & Hrow & Hp).
  run_handler. rewrite Hs. simpl.
  rewrite lookup_insert_ne by discriminate. rewrite Hm. simpl.
  destruct (get_available_dates now (bookings st) masks n); [reflexivity|].
  rewrite Hrow. simpl. rewrite Hp. reflexivity.
Qed.

Lemma handle_callback_date_ask user now epoch_day session days st :
  user_sessions st !! tg_id user = Some session →
  session !! "days_count" = Some days →
  handle_callback user now (date_ epoch_day) st
  = (with_session (tg_id user)
       (<[ "start_date" := timedelta_days epoch_day ]> session) st,
     Ok [MsgAskAddress (timedelta_days epoch_day)
           (timedelta_days epoch_day + timedelta_days days)]).
Proof.
  intros Hs Hd. run_handler. rewrite Hs. simpl.
  rewrite lookup_insert_ne by discriminate. rewrite Hd. reflexivity.
Qed.

Lemma handle_text_commit user now new_id text session start days masks p st :
  user_sessions st !! tg_id user = Some session →
  session !! "start_date" = Some start →
  session !! "days_count" = Some days →
  session !! "masks_count" = Some masks →
  PRICES_get masks days = Some p →
  let b := new_booking user now new_id text masks days start p in
  handle_text user now new_id text st
  = ({| user_sessions := delete (tg_id user) (user_sessions st);
        bookings := bookings st ++ [b] |},
     Ok [MsgConfirmation b; MsgAdminNotification b]).
Proof.
  intros Hs Hst Hd Hm Hp. apply PRICES_get_Some in Hp as (row & Hrow & Hp).
  run_handler. rewrite Hs, Hst. simpl. rewrite Hd. simpl. rewrite Hm. simpl.
  rewrite Hrow. simpl. rewrite Hp. reflexivity.
Qed.

Lemma handle_text_ignored user now new_id text st :
  (user_sessions st !! tg_id user = None ∨
   ∃ session, user_sessions st !! tg_id user = Some session ∧
              session !! "start_date" = None) →
  handle_text user now new_id text st = (st, Ok []).
Proof.
  intros [Hs|(session & Hs & Hd)]; run_handler; rewrite Hs; [reflexivity|].
  rewrite Hd. reflexivity.
Qed.

Lemma load_commit db b t :
  status b = "pending" →
  load (db ++ [b]) t =
  load db t + (if bool_decide (start_date b ≤ t < end_date b)
               then masks_count b else 0).
Proof.
  intros Hst. rewrite load_app, load_singleton. f_equal.
  unfold covers.
  assert (Ha : status_in active_statuses b = true)
    by (apply status_in_active; auto).
  rewrite Ha. simpl.
  destruct (bool_decide_reflect (start_date b ≤ t < end_date b)) as [Hin|Hout].
  - replace (start_date b <=? t) with true by (symmetry; apply Z.leb_le; lia).
    replace (t <? end_date b) with true by (symmetry; apply Z.ltb_lt; lia).
    reflexivity.
  - destruct (Z.leb_spec (start_date b) t), (Z.ltb_spec t (end_date b));
      simpl; try reflexivity. lia.
Qed.

Lemma bind_Ok {A B} (m : M A) (k : A → M B) (st st' : state) (a : A) :
  m st = (st', Ok a) → (m ≫= k) st = k a st'.
Proof. intros H. unfold mbind, M_bind. rewrite H. reflexivity. Qed.

Lemma bind_Raised {A B} (m : M A) (k : A → M B) (st st' : state) (e : exn) :
  m st = (st', Raised e) → (m ≫= k) st = (st', Raised e).
Proof. intros H. unfold mbind, M_bind. rewrite H. reflexivity. Qed.

(** An offered date is a midnight: its button's [%Y-%m-%d] parses back to it. *)
Lemma offered_date_roundtrip now db q dur d :
  d ∈ get_available_dates now db q dur → timedelta_days (d / day) = d.
Proof.
  intros Hd. apply get_available_dates_elem in Hd as (i & _ & -> & _).
  rewrite midnight_whole_days. unfold timedelta_days.
  replace (now / day * day + i * day) with ((now / day + i) * day) by lia.
  rewrite Z.div_mul by (pose proof day_pos; lia). reflexivity.
Qed.



(** C10. A quantity selection, whatever the state of the requester's
    dialogue, replaces the requester's session by the dictionary with the
    single key [masks_count]: a stored duration or start date is gone.
    The sessions of the other requesters and the collection are unchanged. *)
Theorem masks_replaces_session (user : TgUser) (now : datetime) (n : Z)
    (st : state) :
  let st' := fst (handle_callback user now (masks_ n) st) in
  user_sessions st'
    = <[ tg_id user := {[ "masks_count" := n ]} ]> (user_sessions st) ∧
  user_sessions st' !! tg_id user = Some {[ "masks_count" := n ]} ∧
  (∀ session, user_sessions st' !! tg_id user = Some session →
     session !! "masks_count" = Some n ∧
     session !! "days_count" = None ∧
     session !! "start_date" = None ∧
     ∀ key, key ≠ "masks_count" → session !! key = None) ∧
  (∀ uid, uid ≠ tg_id user →
     user_sessions st' !! uid = user_sessions st !! uid) ∧
  bookings st' = bookings st.
Proof.
  intros st'. subst st'. rewrite handle_callback_masks_state. simpl.
  split; [reflexivity|]. split; [apply lookup_insert_eq|]. split; [|split].
  - intros session. rewrite lookup_insert_eq. intros [= <-].
    split; [apply lookup_singleton_eq|].
    split; [reflexivity|]. split; [reflexivity|].
    intros key Hkey. apply lookup_singleton_ne. auto.
  - intros uid Huid. apply lookup_insert_ne. auto.
  - reflexivity.
Qed.

Lemma masks_replaces_session_witness :
  user_sessions (fst (handle_callback alice sample_now (masks_ 1) busy_state)) !! 8
  = Some {[ "masks_count" := 1; "days_count" := 1 ]}.
Proof.
  destruct (masks_replaces_session alice sample_now 1 busy_state)
    as (_ & _ & _ & Hothers & _).
  rewrite (Hothers 8) by discriminate. reflexivity.
Defined.




(** ** The commit of [handle_text] and the capacity invariant *)

(** C1, as stated, fails: [handle_text] commits without looking at the
    collection.  Both requesters of [race] get their confirmation, the
    second one although the collection already holds the first one's two
    units on that day, and 4 units are in use on day 19676. *)
Lemma commit_skips_capacity_check :
  let b1 := new_booking alice sample_now "uuid-1" "Addr 1" 2 1
              (timedelta_days 19676) 140 in
  let b2 := new_booking bob sample_now "uuid-2" "Addr 2" 2 1
              (timedelta_days 19676) 140 in
  timedelta_days 19676 ∈ get_available_dates sample_now [] 2 1 ∧
  race empty_state
    = ({| user_sessions := ∅; bookings := [b1; b2] |},
       Ok [MsgConfirmation b2; MsgAdminNotification b2]) ∧
  load [b1] (timedelta_days 19676) + masks_count b2 = 4 ∧
  load [b1; b2] (timedelta_days 19676) = 4 ∧
  ¬ load (bookings (fst (race empty_state))) (timedelta_days 19676) ≤ 2.
Proof.
  cbv zeta.
  split; [vm_compute; apply list_elem_of_here|].
  split; [vm_compute; reflexivity|].
  split; [vm_compute; reflexivity|].
  split; [vm_compute; reflexivity|].
  vm_compute. intros H. apply H. reflexivity.
Qed.

(** ** Reachable states hold reservations of the data model *)

Lemma PRICES_domain masks days p :
  PRICES_get masks days = Some p →
  (masks = 1 ∨ masks = 2) ∧ (days = 1 ∨ days = 2 ∨ days = 3).
Proof.
  intros Hp. apply PRICES_get_Some in Hp as (row & Hrow & Hp).
  unfold PRICES in Hrow.
  apply lookup_insert_Some in Hrow as [[<- <-]|[Hne1 Hrow]].
  - split; [auto|].
    apply lookup_insert_Some in Hp as [[<- _]|[_ Hp]]; [auto|].
    apply lookup_insert_Some in Hp as [[<- _]|[_ Hp]]; [auto|].
    apply lookup_singleton_Some in Hp as [<- _]. auto.
  - apply lookup_singleton_Some in Hrow as [<- <-]. split; [auto|].
    apply lookup_insert_Some in Hp as [[<- _]|[_ Hp]]; [auto|].
    apply lookup_insert_Some in Hp as [[<- _]|[_ Hp]]; [auto|].
    apply lookup_singleton_Some in Hp as [<- _]. auto.
Qed.

Lemma handle_callback_bookings user now data st :
  bookings (fst (handle_callback user now data st)) = bookings st.
Proof.
  destruct data as [|n|n|e|]; try reflexivity.
  - rewrite handle_callback_masks_state. reflexivity.
  - run_handler. destruct (user_sessions st !! tg_id user) as [session|];
      [|reflexivity]. simpl.
    destruct (_ !! "masks_count") as [m|]; [|reflexivity]. simpl.
    destruct (get_available_dates now (bookings st) m n); [reflexivity|].
    destruct (PRICES !! m) as [row|]; [|reflexivity]. simpl.
    destruct (row !! n); reflexivity.
  - run_handler. destruct (user_sessions st !! tg_id user) as [session|];
      [|reflexivity]. simpl.
    destruct (_ !! "days_count"); reflexivity.
Qed.

Lemma handle_text_bookings user now new_id text st :
  bookings (fst (handle_text user now new_id text st)) = bookings st ∨
  ∃ b, valid_booking b ∧ status b = "pending" ∧
       bookings (fst (handle_text user now new_id text st)) = bookings st ++ [b].
Proof.
  destruct (user_sessions st !! tg_id user) as [session|] eqn:Hs.
  2:{ left. rewrite handle_text_ignored by auto. reflexivity. }
  destruct (session !! "start_date") as [start|] eqn:Hst.
  2:{ left. rewrite handle_text_ignored by eauto. reflexivity. }
  destruct (session !! "days_count") as [days|] eqn:Hd.
  2:{ left. run_handler. rewrite Hs, Hst. simpl. rewrite Hd. reflexivity. }
  destruct (session !! "masks_count") as [masks|] eqn:Hm.
  2:{ left. run_handler. rewrite Hs, Hst. simpl. rewrite Hd. simpl.
      rewrite Hm. reflexivity. }
  destruct (PRICES_get masks days) as [p|] eqn:Hp.
  - right. exists (new_booking user now new_id text masks days start p).
    pose proof (PRICES_domain masks days p Hp) as [Hmd Hdd].
    split; [repeat split; assumption|]. split; [reflexivity|].
    rewrite (handle_text_commit user now new_id text session start days masks p)
      by assumption. reflexivity.
  - left. run_handler. rewrite Hs, Hst. simpl. rewrite Hd. simpl. rewrite Hm. simpl.
    unfold PRICES_get in Hp.
    destruct (PRICES !! masks) as [row|]; [|reflexivity]. simpl in Hp |- *.
    rewrite Hp. reflexivity.
Qed.

Lemma update_one_status_valid bid s db :
  Forall valid_booking db →
  Forall valid_booking (fst (update_one_status bid s db)).
Proof.
  induction 1 as [|b db Hb Hdb IH]; [constructor|]. simpl.
  destruct (String.eqb (id b) bid).
  - constructor; assumption.
  - destruct (update_one_status bid s db) as [db' n]. constructor; assumption.
Qed.

Lemma delete_one_valid bid db :
  Forall valid_booking db → Forall valid_booking (fst (delete_one bid db)).
Proof.
  induction 1 as [|b db Hb Hdb IH]; [constructor|]. simpl.
  destruct (String.eqb (id b) bid); [assumption|].
  destruct (delete_one bid db) as [db' n]. constructor; assumption.
Qed.

Lemma step_valid st st' :
  step st st' → Forall valid_booking (bookings st) →
  Forall valid_booking (bookings st').
Proof.
  intros Hstep Hv. destruct Hstep.
  - rewrite handle_callback_bookings. exact Hv.
  - destruct (handle_text_bookings user now new_id text st)
      as [->|(b & Hb & _ & ->)]; [exact Hv|].
    apply Forall_app. split; [exact Hv|]. constructor; [exact Hb|constructor].
  - unfold update_booking_status.
    pose proof (update_one_status_valid booking_id status' _ Hv) as Hu.
    destruct (update_one_status booking_id status' (bookings st)) as [db' n].
    destruct (n =? 0); exact Hu.
  - unfold delete_booking.
    pose proof (delete_one_valid booking_id _ Hv) as Hu.
    destruct (delete_one booking_id (bookings st)) as [db' n].
    destruct (n =? 0); exact Hu.
Qed.

(** Every stored reservation of a reachable state has a quantity of 1 or
    2, a duration of 1 to 3 days and ends [days_count] days after it
    starts: the reservations the scan meets have positive quantities and
    non-empty windows. *)
Lemma reachable_valid st : reachable st → Forall valid_booking (bookings st).
Proof.
  unfold reachable. revert st.
  apply (rtc_ind_r (R := step) (λ s, Forall valid_booking (bookings s)) empty_state).
  - constructor.
  - intros y z _ Hstep IH. eapply step_valid; eassumption.
Qed.

Lemma valid_booking_window b :
  valid_booking b → 0 ≤ masks_count b ∧ start_date b < end_date b.
Proof.
  intros (Hm & Hd & He). split; [lia|].
  rewrite He. apply window_nonempty. lia.
Qed.

(** In a reachable state the scan needs no assumption on the stored
    reservations: an offered date leaves room at every instant of its
    window, and its interval test is half-open overlap. *)
Lemma reachable_offer_has_room st now q dur d t :
  reachable st →
  d ∈ get_available_dates now (bookings st) q dur →
  d ≤ t < d + timedelta_days dur →
  load (bookings st) t + q ≤ 2.
Proof.
  intros Hr Hd Ht.
  pose proof (reachable_valid st Hr) as Hv. rewrite Forall_forall in Hv.
  apply get_available_dates_elem in Hd as (i & _ & _ & Hcap).
  assert (Hle : load (bookings st) t
                ≤ booked_masks (bookings st) d (d + timedelta_days dur)).
  { apply load_le_booked; [|exact Ht].
    intros b Hb. apply valid_booking_window, Hv, Hb. }
  lia.
Qed.

Lemma reachable_period_filter st c dur b :
  reachable st → 0 < dur → b ∈ bookings st →
  period_filter c (c + timedelta_days dur) b
  = overlaps c (c + timedelta_days dur) b.
Proof.
  intros Hr Hdur Hb.
  pose proof (reachable_valid st Hr) as Hv. rewrite Forall_forall in Hv.
  apply period_filter_overlaps.
  - apply valid_booking_window, Hv, Hb.
  - apply window_nonempty, Hdur.
Qed.

(** * Further properties of the server *)

(** ** More on the availability scan *)

Lemma passing_ascending now db q dur :
  StronglySorted Z.lt
    ((λ i, midnight now + timedelta_days i) <$>
     filter (λ i, candidate_ok db (midnight now) q dur i = true) (range 1 31)).
Proof.
  apply StronglySorted_fmap with (R1 := Z.lt).
  - intros x y Hxy. unfold timedelta_days. pose proof day_pos. nia.
  - apply StronglySorted_filter_lt, range_ascending.
Qed.

(** A candidate that passes the test is returned unless seven earlier
    ones were. *)
Lemma passing_returned now db q dur i :
  1 ≤ i ≤ 30 →
  candidate_ok db (midnight now) q dur i = true →
  midnight now + timedelta_days i ∈ get_available_dates now db q dur ∨
  (length (get_available_dates now db q dur) = 7%nat ∧
   ∀ d', d' ∈ get_available_dates now db q dur →
         d' < midnight now + timedelta_days i).
Proof.
  intros Hi Hok. rewrite get_available_dates_take.
  pose proof (passing_ascending now db q dur) as Hs.
  set (L := (λ i, midnight now + timedelta_days i) <$>
            filter (λ i, candidate_ok db (midnight now) q dur i = true)
              (range 1 31)) in *.
  assert (Hin : midnight now + timedelta_days i ∈ L).
  { apply list_elem_of_fmap. exists i. split; [reflexivity|].
    apply list_elem_of_filter. split; [exact Hok|].
    unfold range. apply elem_of_seqZ. lia. }
  rewrite <- (take_drop 7 L) in Hin, Hs.
  apply elem_of_app in Hin as [Hin|Hin]; [left; exact Hin|right].
  split.
  - rewrite length_take. destruct (decide (7 ≤ length L)%nat) as [|Hlt]; [lia|].
    rewrite drop_ge in Hin by lia. apply elem_of_nil in Hin. destruct Hin.
  - intros d' Hd'. eapply StronglySorted_app_1_elem_of; eassumption.
Qed.

(** The scan sees the collection only through [booked_masks]. *)
Lemma get_available_dates_ext now db db' q dur :
  (∀ c e, booked_masks db c e = booked_masks db' c e) →
  get_available_dates now db q dur = get_available_dates now db' q dur.
Proof.
  intros Hext. rewrite !get_available_dates_take. do 2 f_equal.
  apply list_filter_iff. intros i. unfold candidate_ok. rewrite Hext. reflexivity.
Qed.

Lemma sum_masks_Permutation l l' : l ≡ₚ l' → sum_masks l = sum_masks l'.
Proof. induction 1; simpl; lia. Qed.

Lemma period_filter_active c e b :
  period_filter c e b = true → status_in active_statuses b = true.
Proof. unfold period_filter. rewrite andb_true_iff. tauto. Qed.

Lemma booked_masks_none db c e :
  (∀ b, b ∈ db → status_in active_statuses b = false) →
  booked_masks db c e = 0.
Proof.
  intros Hno. rewrite booked_masks_sum.
  induction db as [|b db IH]; [reflexivity|].
  rewrite filter_cons.
  destruct (decide (period_filter c e b = true)) as [Hp|_].
  - apply period_filter_active in Hp.
    rewrite (Hno b) in Hp by apply list_elem_of_here. discriminate.
  - apply IH. intros b' Hb'. apply Hno. set_solver.
Qed.

Lemma length_filter_impl {A} (P Q : A → Prop) `{∀ x, Decision (P x)}
    `{∀ x, Decision (Q x)} (l : list A) :
  (∀ x, P x → Q x) → (length (filter P l) ≤ length (filter Q l))%nat.
Proof.
  intros Himp. induction l as [|x l IH]; [reflexivity|].
  rewrite !filter_cons.
  destruct (decide (P x)) as [HP|HP], (decide (Q x)) as [HQ|HQ]; simpl; try lia.
  exfalso. auto.
Qed.

(** X1. Nothing is skipped: a candidate of the thirty days that passes the
    capacity test is returned, unless seven earlier dates were returned
    before the scan reached it. *)
Theorem scan_returns_every_passing_date (now : datetime) (db : list Booking)
    (masks_needed days_needed i : Z) :
  1 ≤ i ≤ 30 →
  booked_masks db (midnight now + timedelta_days i)
    (midnight now + timedelta_days i + timedelta_days days_needed)
  + masks_needed ≤ 2 →
  midnight now + timedelta_days i
    ∈ get_available_dates now db masks_needed days_needed ∨
  (length (get_available_dates now db masks_needed days_needed) = 7%nat ∧
   ∀ d', d' ∈ get_available_dates now db masks_needed days_needed →
         d' < midnight now + timedelta_days i).
Proof.
  intros Hi Hcap. apply passing_returned; [exact Hi|].
  unfold candidate_ok. apply Z.leb_le. exact Hcap.
Qed.

Lemma scan_returns_every_passing_date_witness :
  midnight sample_now + timedelta_days 3
    ∈ get_available_dates sample_now sample_db 1 2.
Proof.
  destruct (scan_returns_every_passing_date sample_now sample_db 1 2 3)
    as [Hin|[_ Hall]].
  - lia.
  - vm_compute. discriminate.
  - exact Hin.
  - exfalso. apply (Z.lt_irrefl (midnight sample_now + timedelta_days 3)).
    apply Hall. rewrite sample_scan. apply list_elem_of_here.
Defined.

(** X2. Reservations that are neither pending nor confirmed (cancelled,
    completed, or any other status string) never influence the scan: it
    returns the same dates as on the collection without them. *)
Theorem scan_ignores_inactive (now : datetime) (db : list Booking)
    (masks_needed days_needed : Z) :
  get_available_dates now db masks_needed days_needed =
  get_available_dates now
    (filter (λ b, status_in active_statuses b = true) db)
    masks_needed days_needed.
Proof.
  apply get_available_dates_ext. intros c e.
  rewrite !booked_masks_sum. f_equal. symmetry.
  apply list_filter_filter_l. intros b. apply period_filter_active.
Qed.

(** X3. The scan does not depend on the order in which the reservations
    were inserted: two collections with the same documents give the same
    dates. *)
Theorem scan_order_independent (now : datetime) (db db' : list Booking)
    (masks_needed days_needed : Z) :
  db ≡ₚ db' →
  get_available_dates now db masks_needed days_needed =
  get_available_dates now db' masks_needed days_needed.
Proof.
  intros Hperm. apply get_available_dates_ext. intros c e.
  rewrite !booked_masks_sum. apply sum_masks_Permutation.
  apply filter_Permutation. exact Hperm.
Qed.

Lemma scan_order_independent_witness :
  get_available_dates sample_now
    (sample_booking "B" 2 1 1 19679 "pending" :: sample_db) 1 2 =
  get_available_dates sample_now
    (sample_db ++ [sample_booking "B" 2 1 1 19679 "pending"]) 1 2.
Proof.
  apply scan_order_independent.
  apply Permutation_cons_append.
Defined.

(** With nothing pending or confirmed, every candidate passes when at
    most 2 units are asked for, and none otherwise. *)
Lemma free_inventory_dates (now : datetime) (db : list Booking)
    (masks_needed days_needed : Z) :
  (∀ b, b ∈ db → status_in active_statuses b = false) →
  get_available_dates now db masks_needed days_needed =
  if decide (masks_needed ≤ 2)
  then (λ i, midnight now + timedelta_days i) <$> seqZ 1 7
  else [].
Proof.
  intros Hno. rewrite get_available_dates_take.
  destruct (decide (masks_needed ≤ 2)) as [Hq|Hq].
  - replace (filter _ (range 1 31)) with (range 1 31).
    + rewrite <- fmap_take. reflexivity.
    + symmetry. induction (range 1 31) as [|i l IH]; [reflexivity|].
      rewrite filter_cons_True; [f_equal; exact IH|].
      unfold candidate_ok. rewrite booked_masks_none by exact Hno.
      apply Z.leb_le. lia.
  - replace (filter _ (range 1 31)) with (@nil Z); [reflexivity|].
    symmetry. induction (range 1 31) as [|i l IH]; [reflexivity|].
    rewrite filter_cons_False; [exact IH|].
    unfold candidate_ok. rewrite booked_masks_none by exact Hno.
    rewrite Z.leb_le. lia.
Qed.

(** X5. Asking for fewer units never yields fewer dates; and when fewer
    than seven dates are offered for the smaller quantity, every date
    offered for the larger quantity is among them. *)
Theorem scan_monotone_in_quantity (now : datetime) (db : list Booking)
    (q q' days_needed : Z) :
  q' ≤ q →
  (length (get_available_dates now db q days_needed)
   ≤ length (get_available_dates now db q' days_needed))%nat ∧
  ((length (get_available_dates now db q' days_needed) < 7)%nat →
   ∀ d, d ∈ get_available_dates now db q days_needed →
        d ∈ get_available_dates now db q' days_needed).
Proof.
  intros Hq. split.
  - rewrite !get_available_dates_take, !length_take, !length_fmap.
    assert (length (filter (λ i, candidate_ok db (midnight now) q days_needed i = true)
                      (range 1 31))
            ≤ length (filter (λ i, candidate_ok db (midnight now) q' days_needed i = true)
                        (range 1 31)))%nat; [|lia].
    apply length_filter_impl. intros i. unfold candidate_ok.
    rewrite !Z.leb_le. lia.
  - intros Hlen d Hd.
    apply get_available_dates_elem in Hd as (i & Hi & -> & Hcap).
    destruct (passing_returned now db q' days_needed i Hi) as [Hin|[Hfull _]].
    + unfold candidate_ok. apply Z.leb_le. lia.
    + exact Hin.
    + lia.
Qed.

Lemma scan_monotone_in_quantity_witness :
  (length (get_available_dates sample_now full_db 2 1)
   ≤ length (get_available_dates sample_now full_db 1 1))%nat.
Proof.
  apply (scan_monotone_in_quantity sample_now full_db 2 1 1). lia.
Defined.

(** X6. Every offered date is a midnight: a whole number of days since the
    epoch, strictly after the current instant, so the [%Y-%m-%d] data of
    its button parses back to the same datetime. *)
Theorem offered_dates_are_midnights (now : datetime) (db : list Booking)
    (masks_needed days_needed : Z) (d : datetime) :
  d ∈ get_available_dates now db masks_needed days_needed →
  d mod day = 0 ∧ timedelta_days (d / day) = d ∧ midnight d = d.
Proof.
  intros Hd. pose proof (offered_date_roundtrip _ _ _ _ _ Hd) as Hr.
  assert (Hm : d mod day = 0).
  { rewrite <- Hr. unfold timedelta_days. apply Z.mod_mul.
    pose proof day_pos. lia. }
  split; [exact Hm|]. split; [exact Hr|].
  unfold midnight. lia.
Qed.

Lemma offered_dates_are_midnights_witness :
  timedelta_days 19678 mod day = 0 ∧
  timedelta_days (timedelta_days 19678 / day) = timedelta_days 19678 ∧
  midnight (timedelta_days 19678) = timedelta_days 19678.
Proof.
  apply (offered_dates_are_midnights sample_now sample_db 1 2).
  rewrite sample_scan. apply list_elem_of_here.
Defined.

(** ** More on the dialogue handlers *)

Lemma handle_text_cases user now new_id text st :
  handle_text user now new_id text st = (st, Ok []) ∨
  handle_text user now new_id text st = (st, Raised KeyError) ∨
  ∃ session start days masks p,
    user_sessions st !! tg_id user = Some session ∧
    session !! "start_date" = Some start ∧
    session !! "days_count" = Some days ∧
    session !! "masks_count" = Some masks ∧
    PRICES_get masks days = Some p ∧
    let b := new_booking user now new_id text masks days start p in
    handle_text user now new_id text st
    = ({| user_sessions := delete (tg_id user) (user_sessions st);
          bookings := bookings st ++ [b] |},
       Ok [MsgConfirmation b; MsgAdminNotification b]).
Proof.
  destruct (user_sessions st !! tg_id user) as [session|] eqn:Hs.
  2:{ left. apply handle_text_ignored. auto. }
  destruct (session !! "start_date") as [start|] eqn:Hst.
  2:{ left. apply handle_text_ignored. eauto. }
  destruct (session !! "days_count") as [days|] eqn:Hd.
  2:{ right. left. run_handler. rewrite Hs, Hst. simpl. rewrite Hd. reflexivity. }
  destruct (session !! "masks_count") as [masks|] eqn:Hm.
  2:{ right. left. run_handler. rewrite Hs, Hst. simpl. rewrite Hd. simpl.
      rewrite Hm. reflexivity. }
  destruct (PRICES_get masks days) as [p|] eqn:Hp.
  - right. right. exists session, start, days, masks, p.
    do 5 (split; [first [assumption | reflexivity]|]).
    exact (handle_text_commit user now new_id text session start days masks p
             st Hs Hst Hd Hm Hp).
  - right. left. run_handler. rewrite Hs, Hst. simpl. rewrite Hd. simpl.
    rewrite Hm. simpl. unfold PRICES_get in Hp.
    destruct (PRICES !! masks) as [row|]; [|reflexivity]. simpl in Hp |- *.
    rewrite Hp. reflexivity.
Qed.

(** What a button does to the state: nothing, or one write to the
    sender's session. *)
Lemma handle_callback_state user now data st :
  fst (handle_callback user now data st) = st ∨
  (∃ n, data = masks_ n ∧
        fst (handle_callback user now data st)
        = with_session (tg_id user) {[ "masks_count" := n ]} st) ∨
  (∃ n session, data = days_ n ∧
        user_sessions st !! tg_id user = Some session ∧
        fst (handle_callback user now data st)
        = with_session (tg_id user) (<[ "days_count" := n ]> session) st) ∨
  (∃ e session, data = date_ e ∧
        user_sessions st !! tg_id user = Some session ∧
        fst (handle_callback user now data st)
        = with_session (tg_id user)
            (<[ "start_date" := timedelta_days e ]> session) st).
Proof.
  destruct data as [|n|n|e|].
  - left. reflexivity.
  - right. left. exists n. split; [reflexivity|].
    apply handle_callback_masks_state.
  - destruct (user_sessions st !! tg_id user) as [session|] eqn:Hs.
    + right. right. left. exists n, session. split; [reflexivity|].
      split; [reflexivity|].
      run_handler. rewrite Hs. simpl.
      destruct (_ !! "masks_count") as [m|]; [|reflexivity]. simpl.
      destruct (get_available_dates now (bookings st) m n); [reflexivity|].
      destruct (PRICES !! m) as [row|]; [|reflexivity]. simpl.
      destruct (row !! n); reflexivity.
    + left. run_handler. rewrite Hs. reflexivity.
  - destruct (user_sessions st !! tg_id user) as [session|] eqn:Hs.
    + right. right. right. exists e, session. split; [reflexivity|].
      split; [reflexivity|].
      run_handler. rewrite Hs. simpl.
      destruct (_ !! "days_count"); reflexivity.
    + left. run_handler. rewrite Hs. reflexivity.
  - left. reflexivity.
Qed.

(** X8. After a commit the requester's session is gone, so a repeated text
    message (a duplicate delivery, a second address) is dropped: it
    commits nothing and sends nothing. *)
Theorem repeated_text_is_ignored (user : TgUser) (now now' : datetime)
    (new_id new_id' text text' : string) (st : state)
    (m : message) (ms : list message) :
  snd (handle_text user now new_id text st) = Ok (m :: ms) →
  let st' := fst (handle_text user now new_id text st) in
  handle_text user now' new_id' text' st' = (st', Ok []).
Proof.
  intros Hsent st'. subst st'.
  destruct (handle_text_cases user now new_id text st)
    as [H|[H|(session & start & days & masks & p & _ & _ & _ & _ & _ & H)]];
    cbv zeta in H; rewrite H in Hsent |- *; simpl in Hsent |- *;
    try discriminate Hsent.
  apply handle_text_ignored. left. simpl. apply lookup_delete_eq.
Qed.

Lemma repeated_text_is_ignored_witness :
  handle_text alice sample_now "uuid-2" "Addr 1"
    (fst (handle_text alice sample_now "uuid-1" "Addr 1" ready_state))
  = (fst (handle_text alice sample_now "uuid-1" "Addr 1" ready_state), Ok []).
Proof.
  eapply (repeated_text_is_ignored alice sample_now sample_now "uuid-1" "uuid-2"
            "Addr 1" "Addr 1" ready_state).
  vm_compute. reflexivity.
Defined.

(** X9. The events of one requester never touch the session of another:
    for every button and every text message the sessions of all other
    requesters are as before; and no button writes to the collection. *)
Theorem handlers_keep_other_sessions (user : TgUser) (now : datetime)
    (data : callback_data) (new_id text : string) (st : state) (uid : Z) :
  uid ≠ tg_id user →
  user_sessions (fst (handle_callback user now data st)) !! uid
    = user_sessions st !! uid ∧
  user_sessions (fst (handle_text user now new_id text st)) !! uid
    = user_sessions st !! uid ∧
  bookings (fst (handle_callback user now data st)) = bookings st.
Proof.
  intros Hne. split; [|split].
  - destruct (handle_callback_state user now data st)
      as [H|[(n & _ & H)|[(n & s & _ & _ & H)|(e & s & _ & _ & H)]]];
      rewrite H; try reflexivity; simpl; apply lookup_insert_ne; auto.
  - destruct (handle_text_cases user now new_id text st)
      as [H|[H|(session & start & days & masks & p & _ & _ & _ & _ & _ & H)]];
      cbv zeta in H; rewrite H; try reflexivity.
    simpl. apply lookup_delete_ne. auto.
  - apply handle_callback_bookings.
Qed.

Lemma handlers_keep_other_sessions_witness :
  user_sessions (fst (handle_text alice sample_now "uuid-1" "Addr 1" busy_state)) !! 8
  = user_sessions busy_state !! 8.
Proof.
  refine (proj1 (proj2 (handlers_keep_other_sessions alice sample_now
                          start_booking "uuid-1" "Addr 1" busy_state 8 _))).
  discriminate.
Defined.

(** ** Invariants of the reachable states *)

Lemma update_one_status_Forall (P : Booking → Prop) bid s db :
  (∀ b, P b → P (set_status s b)) →
  Forall P db → Forall P (fst (update_one_status bid s db)).
Proof.
  intros Hset. induction 1 as [|b db Hb Hdb IH]; [constructor|]. simpl.
  destruct (String.eqb (id b) bid).
  - constructor; [apply Hset, Hb | exact Hdb].
  - destruct (update_one_status bid s db) as [db' n]. constructor; assumption.
Qed.

Lemma delete_one_Forall (P : Booking → Prop) bid db :
  Forall P db → Forall P (fst (delete_one bid db)).
Proof.
  induction 1 as [|b db Hb Hdb IH]; [constructor|]. simpl.
  destruct (String.eqb (id b) bid); [assumption|].
  destruct (delete_one bid db) as [db' n]. constructor; assumption.
Qed.

Lemma timedelta_days_mod e : timedelta_days e mod day = 0.
Proof. unfold timedelta_days. apply Z.mod_mul. pose proof day_pos. lia. Qed.

Lemma with_session_inv uid session st :
  state_inv st → session_ok session → state_inv (with_session uid session st).
Proof.
  intros [Hdb Hs] Hok. split; [exact Hdb|].
  intros uid' s'. simpl. intros Hl.
  apply lookup_insert_Some in Hl as [[_ <-]|[_ Hl]]; [exact Hok|].
  eapply Hs, Hl.
Qed.

Lemma step_inv st st' : step st st' → state_inv st → state_inv st'.
Proof.
  intros Hstep Hinv. destruct Hstep.
  - destruct (handle_callback_state user now data st)
      as [H|[(n & _ & H)|[(n & s & _ & Hs & H)|(e & s & _ & Hs & H)]]];
      rewrite H; [exact Hinv| | |]; apply with_session_inv; try exact Hinv.
    + split; [rewrite lookup_singleton_eq; eauto|].
      intros d. rewrite lookup_singleton_ne by discriminate. discriminate.
    + destruct (proj2 Hinv _ _ Hs) as [Hm Hd]. split.
      * rewrite lookup_insert_ne by discriminate. exact Hm.
      * intros d. rewrite lookup_insert_ne by discriminate. apply Hd.
    + destruct (proj2 Hinv _ _ Hs) as [Hm Hd]. split.
      * rewrite lookup_insert_ne by discriminate. exact Hm.
      * intros d. rewrite lookup_insert_eq. intros [= <-].
        apply timedelta_days_mod.
  - destruct (handle_text_cases user now new_id text st)
      as [H|[H|(session & start & days & masks & p & Hs & Hst & Hd & Hm & Hp & H)]];
      cbv zeta in H; rewrite H; try exact Hinv.
    destruct Hinv as [Hdb Hss]. split; simpl.
    + apply Forall_app. split; [exact Hdb|].
      constructor; [|constructor].
      split; [exact Hp|]. split; [reflexivity|].
      simpl. apply (proj2 (Hss _ _ Hs)), Hst.
    + intros uid s Hl. apply lookup_delete_Some in Hl as [_ Hl].
      eapply Hss, Hl.
  - destruct Hinv as [Hdb Hss]. unfold update_booking_status.
    pose proof (update_one_status_Forall stored_ok booking_id status'
                  (bookings st) (λ b Hb, Hb) Hdb) as Hu.
    destruct (update_one_status booking_id status' (bookings st)) as [db' n].
    destruct (n =? 0); split; assumption.
  - destruct Hinv as [Hdb Hss]. unfold delete_booking.
    pose proof (delete_one_Forall stored_ok booking_id (bookings st) Hdb) as Hu.
    destruct (delete_one booking_id (bookings st)) as [db' n].
    destruct (n =? 0); split; assumption.
Qed.

Lemma reachable_inv st : reachable st → state_inv st.
Proof.
  unfold reachable. revert st.
  apply (rtc_ind_r (R := step) state_inv empty_state).
  - split; [constructor|]. intros uid s Hl. simpl in Hl.
    rewrite lookup_empty in Hl. discriminate.
  - intros y z _ Hstep IH. eapply step_inv; eassumption.
Qed.

Lemma dialogue_state_reachable : reachable dialogue_state.
Proof.
  unfold reachable, dialogue_state.
  eapply rtc_l; [apply step_callback|].
  eapply rtc_l; [apply step_callback|].
  eapply rtc_l; [apply step_callback|].
  eapply rtc_l; [apply step_text|].
  apply rtc_refl.
Qed.

(** X10. Whatever buttons, text messages, status updates and deletions
    were served since the start, every stored reservation has a quantity
    and a duration that [PRICES] prices, carries that price, ends
    [days_count] days after it starts and starts at a midnight; and every
    session holds a quantity, and a start date only at a midnight. *)
Theorem reachable_state_invariant (st : state) :
  reachable st →
  (∀ b, b ∈ bookings st →
     PRICES_get (masks_count b) (days_count b) = Some (price b) ∧
     (masks_count b = 1 ∨ masks_count b = 2) ∧
     (days_count b = 1 ∨ days_count b = 2 ∨ days_count b = 3) ∧
     70 ≤ price b ≤ 360 ∧
     end_date b = start_date b + timedelta_days (days_count b) ∧
     start_date b mod day = 0 ∧ end_date b mod day = 0) ∧
  (∀ uid session, user_sessions st !! uid = Some session →
     is_Some (session !! "masks_count") ∧
     ∀ d, session !! "start_date" = Some d → d mod day = 0).
Proof.
  intros Hr. destruct (reachable_inv st Hr) as [Hdb Hss].
  split; [|exact Hss].
  rewrite Forall_forall in Hdb. intros b Hb.
  destruct (Hdb b Hb) as (Hp & He & Hs).
  pose proof (PRICES_domain _ _ _ Hp) as [Hm Hd].
  split; [exact Hp|]. split; [exact Hm|]. split; [exact Hd|].
  split.
  { destruct Hm as [Hm|Hm], Hd as [Hd|[Hd|Hd]]; rewrite Hm, Hd in Hp;
      match type of Hp with
      | PRICES_get ?m ?d = _ =>
          let v := eval vm_compute in (PRICES_get m d) in
          change (PRICES_get m d) with v in Hp
      end; injection Hp as Hp; lia. }
  split; [exact He|]. split; [exact Hs|].
  rewrite He. unfold timedelta_days in *.
  rewrite Z.add_mod, Hs, Z.mod_mul by (pose proof day_pos; lia).
  reflexivity.
Qed.

Lemma reachable_state_invariant_witness :
  start_date (new_booking alice sample_now "uuid-1" "Addr 1" 2 3
                (timedelta_days 19676) 360) mod day = 0.
Proof.
  destruct (reachable_state_invariant _ dialogue_state_reachable) as [Hdb _].
  assert (Hin : new_booking alice sample_now "uuid-1" "Addr 1" 2 3
                  (timedelta_days 19676) 360 ∈ bookings dialogue_state).
  { vm_compute. apply list_elem_of_here. }
  destruct (Hdb _ Hin) as (_ & _ & _ & _ & _ & Hs & _).
  exact Hs.
Defined.

(** ** From the duration button to the commit *)

Lemma finish_flow_run user n1 n2 n3 days e new_id text session masks p st :
  user_sessions st !! tg_id user = Some session →
  session !! "masks_count" = Some masks →
  PRICES_get masks days = Some p →
  let b := new_booking user n3 new_id text masks days (timedelta_days e) p in
  finish_flow user n1 n2 n3 days e new_id text st
  = ({| user_sessions := delete (tg_id user) (user_sessions st);
        bookings := bookings st ++ [b] |},
     Ok [MsgConfirmation b; MsgAdminNotification b]).
Proof.
  intros Hs Hm Hp b. unfold finish_flow.
  erewrite bind_Ok by (eapply handle_callback_days_offer; eassumption).
  erewrite bind_Ok.
  2:{ eapply handle_callback_date_ask with (days := days).
      - simpl. apply lookup_insert_eq.
      - apply lookup_insert_eq. }
  erewrite handle_text_commit
    with (start := timedelta_days e) (days := days) (masks := masks) (p := p).
  2:{ simpl. apply lookup_insert_eq. }
  2:{ apply lookup_insert_eq. }
  2:{ rewrite lookup_insert_ne by discriminate. apply lookup_insert_eq. }
  2:{ rewrite !lookup_insert_ne by discriminate. exact Hm. }
  2:{ exact Hp. }
  simpl. rewrite !delete_insert_eq. reflexivity.
Qed.

(** X12. A dialogue that is not interleaved with another write keeps the
    capacity invariant: when at most 2 units are in use at every instant,
    and the requester picks a date that the duration button has just
    offered, then after the commit at most 2 units are in use at every
    instant. *)
Theorem uninterrupted_dialogue_keeps_capacity (user : TgUser)
    (n1 n2 n3 : datetime) (days : Z) (d : datetime) (new_id text : string)
    (session : gmap string Z) (masks p : Z) (st : state) :
  (∀ b, b ∈ bookings st → 0 ≤ masks_count b) →
  (∀ t, load (bookings st) t ≤ 2) →
  user_sessions st !! tg_id user = Some session →
  session !! "masks_count" = Some masks →
  PRICES_get masks days = Some p →
  d ∈ get_available_dates n1 (bookings st) masks days →
  ∀ t, load (bookings (fst (finish_flow user n1 n2 n3 days (d / day)
                              new_id text st))) t ≤ 2.
Proof.
  intros Hpos Hinv Hs Hm Hp Hd t.
  rewrite (finish_flow_run user n1 n2 n3 days (d / day) new_id text session
             masks p st Hs Hm Hp).
  simpl. rewrite (offered_date_roundtrip _ _ _ _ _ Hd).
  rewrite load_commit by reflexivity. simpl.
  destruct (bool_decide_reflect (d ≤ t < d + timedelta_days days)) as [Hin|_].
  - apply get_available_dates_elem in Hd as (i & _ & _ & Hcap).
    pose proof (load_le_booked (bookings st) d (d + timedelta_days days) t
                  Hpos Hin). lia.
  - specialize (Hinv t). lia.
Qed.

Lemma sample_db_load t : load sample_db t ≤ 2.
Proof.
  unfold sample_db. rewrite load_singleton.
  destruct (covers t _); simpl; lia.
Qed.

Lemma sample_db_nonneg b : b ∈ sample_db → 0 ≤ masks_count b.
Proof.
  intros Hb. apply list_elem_of_singleton in Hb. subst b. simpl. lia.
Qed.

Lemma uninterrupted_dialogue_keeps_capacity_witness :
  load (bookings (fst (finish_flow bob sample_now sample_now sample_now 2
                         (timedelta_days 19678 / day) "uuid-9" "Addr"
                         busy_state)))
    (timedelta_days 19678) ≤ 2.
Proof.
  apply (uninterrupted_dialogue_keeps_capacity bob sample_now sample_now
           sample_now 2 (timedelta_days 19678) "uuid-9" "Addr"
           {[ "masks_count" := 1; "days_count" := 1 ]} 1 130 busy_state).
  - exact sample_db_nonneg.
  - exact sample_db_load.
  - reflexivity.
  - reflexivity.
  - reflexivity.
  - simpl. rewrite sample_scan. apply list_elem_of_here.
Defined.

Lemma booked_masks_app db1 db2 c e :
  booked_masks (db1 ++ db2) c e = booked_masks db1 c e + booked_masks db2 c e.
Proof. rewrite !booked_masks_sum, filter_app. apply sum_masks_app. Qed.

Lemma booked_masks_nonneg db c e :
  (∀ b, b ∈ db → 0 ≤ masks_count b) → 0 ≤ booked_masks db c e.
Proof. intros Hpos. rewrite booked_masks_sum. apply sum_masks_filter_nonneg, Hpos. Qed.

Lemma booked_masks_singleton b c e :
  booked_masks [b] c e = if period_filter c e b then masks_count b else 0.
Proof.
  rewrite booked_masks_sum, filter_cons, filter_nil.
  destruct (period_filter c e b); simpl; [lia | reflexivity].
Qed.

(** X13. A committed reservation blocks its window: once a pending or
    confirmed reservation [b] is appended, a later request whose quantity
    does not fit beside it ([masks_count b + q > 2]) is offered no date
    whose window [[d, d + days)] meets the window of [b]. *)
Theorem committed_window_is_blocked (now : datetime) (db : list Booking)
    (b : Booking) (q days_needed : Z) (d : datetime) :
  (∀ b', b' ∈ db → 0 ≤ masks_count b') →
  status b = "pending" ∨ status b = "confirmed" →
  start_date b < end_date b →
  0 < days_needed →
  2 < masks_count b + q →
  d ∈ get_available_dates now (db ++ [b]) q days_needed →
  d + timedelta_days days_needed ≤ start_date b ∨ end_date b ≤ d.
Proof.
  intros Hpos Hst Hb Hdays Hq Hd.
  apply get_available_dates_elem in Hd as (i & _ & _ & Hcap).
  rewrite booked_masks_app, booked_masks_singleton in Hcap.
  pose proof (booked_masks_nonneg db d (d + timedelta_days days_needed) Hpos).
  rewrite period_filter_overlaps in Hcap
    by (try exact Hb; apply window_nonempty, Hdays).
  destruct (overlaps d (d + timedelta_days days_needed) b) eqn:Ho; [lia|].
  apply not_true_iff_false in Ho. rewrite overlaps_spec in Ho.
  destruct (decide (d + timedelta_days days_needed ≤ start_date b)); [auto|].
  destruct (decide (end_date b ≤ d)); [auto|].
  exfalso. apply Ho. split; [exact Hst|]. lia.
Qed.

Lemma committed_window_is_blocked_witness :
  timedelta_days 19678 + timedelta_days 2
    ≤ start_date (sample_booking "B" 2 2 2 19680 "pending") ∨
  end_date (sample_booking "B" 2 2 2 19680 "pending") ≤ timedelta_days 19678.
Proof.
  apply (committed_window_is_blocked sample_now sample_db
           (sample_booking "B" 2 2 2 19680 "pending") 1 2
           (timedelta_days 19678)).
  - exact sample_db_nonneg.
  - left. reflexivity.
  - vm_compute. reflexivity.
  - lia.
  - simpl. lia.
  - vm_compute. apply list_elem_of_here.
Defined.

(** ** More on the operator routes *)

(** The first document with the identifier is the one removed. *)
Lemma delete_one_matched bid db :
  (∃ b, b ∈ db ∧ id b = bid) →
  ∃ (i : nat) (b : Booking),
    db !! i = Some b ∧ id b = bid ∧
    (∀ (j : nat) b', (j < i)%nat → db !! j = Some b' → id b' ≠ bid) ∧
    delete_one bid db = (delete i db, 1).
Proof.
  induction db as [|x db IH]; intros (b & Hb & Hid).
  - apply elem_of_nil in Hb. destruct Hb.
  - simpl. destruct (String.eqb_spec (id x) bid) as [Heq|Hne].
    + exists 0%nat, x. repeat split; auto. intros j b' Hj. lia.
    + destruct IH as (i & b0 & Hi & Hid0 & Hfirst & Hdel).
      { exists b. split; [|exact Hid].
        apply elem_of_cons in Hb as [->|Hb]; [contradiction | exact Hb]. }
      exists (S i), b0. rewrite Hdel. repeat split; auto.
      intros [|j] b' Hj Hl; simpl in Hl.
      * injection Hl as <-. exact Hne.
      * apply (Hfirst j b'); [lia | exact Hl].
Qed.

Lemma delete_one_unique bid db :
  NoDup (id <$> db) → ∀ b, b ∈ fst (delete_one bid db) → id b ≠ bid.
Proof.
  induction db as [|x db IH]; intros Hnd b Hb.
  - apply elem_of_nil in Hb. destruct Hb.
  - rewrite fmap_cons in Hnd. apply NoDup_cons in Hnd as [Hx Hnd].
    simpl in Hb. destruct (String.eqb_spec (id x) bid) as [Heq|Hne].
    + simpl in Hb. intros Hid. apply Hx. rewrite Heq, <- Hid.
      apply list_elem_of_fmap_2, Hb.
    + destruct (delete_one bid db) as [db' n] eqn:Hdel. simpl in Hb, IH.
      apply elem_of_cons in Hb as [->|Hb]; [exact Hne|].
      apply IH; assumption.
Qed.

Lemma load_cons b db t : load (b :: db) t = held t b + load db t.
Proof.
  unfold load, held. rewrite filter_cons.
  destruct (covers t b); simpl; [reflexivity | lia].
Qed.

Lemma load_delete db (i : nat) b t :
  db !! i = Some b → load (delete i db) t = load db t - held t b.
Proof.
  revert i. induction db as [|x db IH]; intros [|i] Hi; try discriminate.
  - injection Hi as ->. simpl. rewrite load_cons. lia.
  - simpl in Hi. change (delete (S i) (x :: db)) with (x :: delete i db).
    rewrite !load_cons, (IH i Hi). lia.
Qed.

Lemma load_insert db (i : nat) b b' t :
  db !! i = Some b →
  load (<[i := b']> db) t = load db t - held t b + held t b'.
Proof.
  revert i. induction db as [|x db IH]; intros [|i] Hi; try discriminate.
  - injection Hi as ->. simpl. rewrite !load_cons. lia.
  - simpl in Hi. simpl. rewrite !load_cons, (IH i Hi). lia.
Qed.

Lemma held_inactive t s b :
  s ≠ "pending" → s ≠ "confirmed" → held t (set_status s b) = 0.
Proof.
  intros H1 H2. unfold held, covers.
  assert (Hs : status_in active_statuses (set_status s b) = false).
  { apply not_true_iff_false. rewrite status_in_active. simpl. tauto. }
  rewrite Hs. reflexivity.
Qed.

(** X14. On an identifier that a stored reservation carries,
    [delete_booking] answers "deleted" and removes exactly one document,
    the first with that identifier: the others stay, in their order, and
    the sessions are untouched. *)
Theorem delete_booking_removes_one (st : state) (booking_id : string) :
  (∃ b, b ∈ bookings st ∧ id b = booking_id) →
  ∃ (i : nat) (b : Booking),
    bookings st !! i = Some b ∧ id b = booking_id ∧
    (∀ (j : nat) b', (j < i)%nat → bookings st !! j = Some b' → id b' ≠ booking_id) ∧
    delete_booking booking_id st
    = ({| user_sessions := user_sessions st;
          bookings := delete i (bookings st) |}, inr "deleted") ∧
    bookings st = take i (bookings st) ++ b :: drop (S i) (bookings st) ∧
    delete i (bookings st) = take i (bookings st) ++ drop (S i) (bookings st) ∧
    S (length (delete i (bookings st))) = length (bookings st).
Proof.
  intros Hex.
  destruct (delete_one_matched booking_id (bookings st) Hex)
    as (i & b & Hi & Hid & Hfirst & Hdel).
  exists i, b. split; [exact Hi|]. split; [exact Hid|]. split; [exact Hfirst|].
  unfold delete_booking. rewrite Hdel. simpl.
  split; [reflexivity|]. split.
  { symmetry. apply take_drop_middle, Hi. }
  split.
  { apply delete_take_drop. }
  pose proof (lookup_lt_Some _ _ _ Hi). rewrite length_delete by eauto. lia.
Qed.

Lemma delete_booking_removes_one_witness :
  delete_booking "A" sample_state
  = ({| user_sessions := ∅; bookings := [] |}, inr "deleted").
Proof.
  destruct (delete_booking_removes_one sample_state "A")
    as (i & b & Hi & _ & _ & Hdel & _).
  - exists (sample_booking "A" 1 2 2 19676 "confirmed").
    split; [apply list_elem_of_here | reflexivity].
  - rewrite Hdel. destruct i as [|i]; [reflexivity | discriminate Hi].
Defined.

(** X15. When the stored identifiers are pairwise different, a deleted
    identifier is gone: a second [delete_booking] and any
    [update_booking_status] on it answer 404 and change nothing. *)
Theorem deleted_id_is_unknown (st : state) (booking_id : string) :
  NoDup (id <$> bookings st) →
  let st' := fst (delete_booking booking_id st) in
  delete_booking booking_id st' = (st', inl HTTP_404) ∧
  ∀ status', update_booking_status booking_id status' st' = (st', inl HTTP_404).
Proof.
  intros Hnd st'.
  assert (Hno : ∀ b, b ∈ bookings st' → id b ≠ booking_id).
  { subst st'. unfold delete_booking.
    pose proof (delete_one_unique booking_id (bookings st) Hnd) as Hu.
    destruct (delete_one booking_id (bookings st)) as [db' n].
    destruct (n =? 0); exact Hu. }
  destruct st' as [sessions db]. simpl in Hno.
  unfold update_booking_status, delete_booking. simpl.
  rewrite (delete_one_unmatched _ _ Hno). split; [reflexivity|].
  intros s. rewrite (update_one_status_unmatched _ _ _ Hno). reflexivity.
Qed.

Lemma deleted_id_is_unknown_witness :
  delete_booking "A" (fst (delete_booking "A" sample_state))
  = (fst (delete_booking "A" sample_state), inl HTTP_404).
Proof.
  refine (proj1 (deleted_id_is_unknown sample_state "A" _)).
  simpl. apply NoDup_singleton.
Defined.

(** X16. Setting a status other than pending and confirmed (cancelled,
    completed, or any other string) releases the units of the reservation:
    at every instant the units in use drop by what the reservation held
    there, and nothing else changes in the count. *)
Theorem inactive_status_releases_units (st : state) (booking_id s : string) :
  s ≠ "pending" → s ≠ "confirmed" →
  (∃ b, b ∈ bookings st ∧ id b = booking_id) →
  ∃ (i : nat) (b : Booking),
    bookings st !! i = Some b ∧ id b = booking_id ∧
    (∀ (j : nat) b', (j < i)%nat → bookings st !! j = Some b' → id b' ≠ booking_id) ∧
    ∀ t, load (bookings (fst (update_booking_status booking_id s st))) t
         = load (bookings st) t - held t b.
Proof.
  intros H1 H2 Hex.
  destruct (update_one_status_matched booking_id s (bookings st) Hex)
    as (i & b & Hi & Hid & Hfirst & Hupd).
  exists i, b. split; [exact Hi|]. split; [exact Hid|]. split; [exact Hfirst|].
  intros t. unfold update_booking_status. rewrite Hupd. simpl.
  rewrite (load_insert _ _ _ _ _ Hi), held_inactive by assumption. lia.
Qed.

Lemma inactive_status_releases_units_witness :
  load (bookings (fst (update_booking_status "A" "cancelled" sample_state)))
    (timedelta_days 19676) = 0.
Proof.
  destruct (inactive_status_releases_units sample_state "A" "cancelled")
    as (i & b & Hi & _ & _ & Hload).
  - discriminate.
  - discriminate.
  - exists (sample_booking "A" 1 2 2 19676 "confirmed").
    split; [apply list_elem_of_here | reflexivity].
  - rewrite Hload. destruct i as [|i]; [|discriminate Hi].
    injection Hi as <-. vm_compute. reflexivity.
Defined.

(** X17. Deleting a reservation releases its units: at every instant the
    units in use drop by what the deleted reservation held there. *)
Theorem delete_releases_units (st : state) (booking_id : string) :
  (∃ b, b ∈ bookings st ∧ id b = booking_id) →
  ∃ (i : nat) (b : Booking),
    bookings st !! i = Some b ∧ id b = booking_id ∧
    (∀ (j : nat) b', (j < i)%nat → bookings st !! j = Some b' → id b' ≠ booking_id) ∧
    ∀ t, load (bookings (fst (delete_booking booking_id st))) t
         = load (bookings st) t - held t b.
Proof.
  intros Hex.
  destruct (delete_one_matched booking_id (bookings st) Hex)
    as (i & b & Hi & Hid & Hfirst & Hdel).
  exists i, b. split; [exact Hi|]. split; [exact Hid|]. split; [exact Hfirst|].
  intros t. unfold delete_booking. rewrite Hdel. simpl.
  apply load_delete, Hi.
Qed.

Lemma delete_releases_units_witness :
  load (bookings (fst (delete_booking "A" sample_state))) (timedelta_days 19676)
  = 0.
Proof.
  destruct (delete_releases_units sample_state "A")
    as (i & b & Hi & _ & _ & Hload).
  - exists (sample_booking "A" 1 2 2 19676 "confirmed").
    split; [apply list_elem_of_here | reflexivity].
  - rewrite Hload. destruct i as [|i]; [|discriminate Hi].
    injection Hi as <-. vm_compute. reflexivity.
Defined.

(** ** The listing routes *)

#[global] Instance key_le_total key : Total (key_le key).
Proof. intros a b. unfold key_le. lia. Qed.

#[global] Instance key_le_trans key : Transitive (key_le key).
Proof. intros a b c. unfold key_le. lia. Qed.

#[global] Instance key_ge_total key : Total (key_ge key).
Proof. intros a b. unfold key_ge. lia. Qed.

#[global] Instance key_ge_trans key : Transitive (key_ge key).
Proof. intros a b c. unfold key_ge. lia. Qed.

(** What [sort(...).to_list(n)] returns, for any sort order. *)
Lemma sorted_take_spec (R : relation Booking) `{∀ a b, Decision (R a b)}
    `{!Total R} `{!Transitive R} (n : nat) (l : list Booking) :
  let r := take n (merge_sort R l) in
  (∀ b, b ∈ r → b ∈ l) ∧
  StronglySorted R r ∧
  (length r ≤ n)%nat ∧
  length r = min n (length l) ∧
  ((length l ≤ n)%nat → r ≡ₚ l) ∧
  (∀ b, b ∈ l → b ∉ r → ∀ b', b' ∈ r → R b' b).
Proof.
  intros r. subst r.
  pose proof (merge_sort_Permutation R l) as Hperm.
  pose proof (StronglySorted_merge_sort R l) as Hs.
  split; [|split; [|split; [|split; [|split]]]].
  - intros b Hb. rewrite <- Hperm. eapply subseteq_take, Hb.
  - rewrite <- (take_drop n (merge_sort R l)) in Hs.
    eapply StronglySorted_app_1_l, Hs.
  - rewrite length_take. lia.
  - rewrite length_take, Hperm. reflexivity.
  - intros Hlen. rewrite take_ge; [exact Hperm|]. rewrite Hperm. exact Hlen.
  - intros b Hb Hnot b' Hb'.
    rewrite <- Hperm, <- (take_drop n (merge_sort R l)) in Hb.
    rewrite <- (take_drop n (merge_sort R l)) in Hs.
    apply elem_of_app in Hb as [Hb|Hb]; [contradiction|].
    eapply StronglySorted_app_1_elem_of; eassumption.
Qed.

Lemma bson_datetime_bounds dt : bson_datetime dt ≤ dt < bson_datetime dt + 1000.
Proof.
  unfold bson_datetime. pose proof (Z.mod_pos_bound dt 1000). lia.
Qed.

Lemma bson_datetime_exact dt : dt mod 1000 = 0 → bson_datetime dt = dt.
Proof. unfold bson_datetime. lia. Qed.

Lemma active_filter_spec now b :
  active_filter now b = true ↔
  (status b = "pending" ∨ status b = "confirmed") ∧
  bson_datetime now ≤ end_date b.
Proof.
  unfold active_filter. rewrite andb_true_iff, status_in_active, Z.geb_ge.
  split; intros [Hs He]; (split; [exact Hs | lia]).
Qed.

Lemma active_filter_filter now (db : list Booking) :
  filter (λ b, (status b = "pending" ∨ status b = "confirmed") ∧
               bson_datetime now ≤ end_date b) db
  = filter (λ b, active_filter now b = true) db.
Proof.
  apply list_filter_iff. intros b. symmetry. apply active_filter_spec.
Qed.

(** X18. [GET /api/bookings/active] returns only stored reservations that
    are pending or confirmed and end at or after the current instant cut
    to the millisecond (the precision of the query), so none that ended a
    millisecond or more before now; in ascending order of start date, at
    most 100 of them; it returns all of them when there are at most 100,
    and otherwise leaves out only reservations that start no earlier than
    every returned one. *)
Theorem active_listing_spec (now : datetime) (db : list Booking) :
  let r := api_get_active_bookings now db in
  let matching :=
    filter (λ b, (status b = "pending" ∨ status b = "confirmed") ∧
                 bson_datetime now ≤ end_date b) db in
  (∀ b, b ∈ r →
     b ∈ db ∧ (status b = "pending" ∨ status b = "confirmed") ∧
     bson_datetime now ≤ end_date b ∧ now < end_date b + 1000) ∧
  StronglySorted (λ a b, start_date a ≤ start_date b) r ∧
  (length r ≤ 100)%nat ∧
  ((length matching ≤ 100)%nat → r ≡ₚ matching) ∧
  (∀ b, b ∈ matching → b ∉ r →
     ∀ b', b' ∈ r → start_date b' ≤ start_date b).
Proof.
  intros r matching. subst r matching.
  unfold api_get_active_bookings, sort_asc.
  rewrite active_filter_filter.
  destruct (sorted_take_spec (key_le start_date) 100
              (filter (λ b, active_filter now b = true) db))
    as (Hin & Hs & Hlen & _ & Hall & Hrest).
  split; [|split; [|split; [|split]]].
  - intros b Hb. apply Hin, list_elem_of_filter in Hb as [Hf Hb].
    apply active_filter_spec in Hf as [Hst He].
    pose proof (bson_datetime_bounds now).
    split; [exact Hb|]. split; [exact Hst|]. split; [exact He | lia].
  - exact Hs.
  - exact Hlen.
  - exact Hall.
  - exact Hrest.
Qed.

(** X19. [GET /api/bookings] returns stored reservations only, newest
    first by creation instant, at most 100 of them; it returns all of
    them when at most 100 are stored, and otherwise leaves out only
    reservations that are no newer than every returned one. *)
Theorem all_listing_spec (db : list Booking) :
  let r := api_get_bookings db in
  (∀ b, b ∈ r → b ∈ db) ∧
  StronglySorted (λ a b, created_at b ≤ created_at a) r ∧
  length r = min 100 (length db) ∧
  ((length db ≤ 100)%nat → r ≡ₚ db) ∧
  (∀ b, b ∈ db → b ∉ r → ∀ b', b' ∈ r → created_at b ≤ created_at b').
Proof.
  intros r. subst r. unfold api_get_bookings, sort_desc.
  destruct (sorted_take_spec (key_ge created_at) 100 db)
    as (Hin & Hs & _ & Hlen & Hall & Hrest).
  split; [exact Hin|]. split; [exact Hs|]. split; [exact Hlen|].
  split; [exact Hall|]. exact Hrest.
Qed.

(** ** The operator's panel *)

Example at_username_none : at_username bob = "@None".
Proof. reflexivity. Qed.

Lemma filter_all_true (db : list Booking) :
  filter (λ _ : Booking, true = true) db = db.
Proof.
  induction db as [|b db IH]; [reflexivity|].
  rewrite filter_cons_True by reflexivity. f_equal. exact IH.
Qed.

Lemma count_documents_all db :
  count_documents (λ _, true) db = Z.of_nat (length db).
Proof. unfold count_documents. rewrite filter_all_true. reflexivity. Qed.

Lemma admin_gate_open admin_username user :
  at_username user = admin_username →
  negb (String.eqb (at_username user) admin_username) = false.
Proof. intros ->. rewrite String.eqb_refl. reflexivity. Qed.

Lemma admin_gate_closed admin_username user :
  at_username user ≠ admin_username →
  negb (String.eqb (at_username user) admin_username) = true.
Proof. intros Hne. apply negb_true_iff, String.eqb_neq, Hne. Qed.

Lemma monthly_revenue_sum ms db :
  monthly_revenue ms db = sum_price (filter (λ b, revenue_filter ms b = true) db).
Proof. unfold monthly_revenue. destruct (filter _ db); reflexivity. Qed.

Lemma stored_ok_price b : stored_ok b → 70 ≤ price b ≤ 360.
Proof.
  intros (Hp & _ & _).
  pose proof (PRICES_domain _ _ _ Hp) as [Hm Hd].
  destruct Hm as [Hm|Hm], Hd as [Hd|[Hd|Hd]]; rewrite Hm, Hd in Hp;
    match type of Hp with
    | PRICES_get ?m ?d = _ =>
        let v := eval vm_compute in (PRICES_get m d) in
        change (PRICES_get m d) with v in Hp
    end; injection Hp as Hp; lia.
Qed.

Lemma sum_price_bounds (l : list Booking) :
  Forall stored_ok l →
  70 * Z.of_nat (length l) ≤ sum_price l ≤ 360 * Z.of_nat (length l).
Proof.
  induction 1 as [|b l Hb Hl IH]; [simpl; lia|].
  pose proof (stored_ok_price b Hb). simpl length. simpl sum_price. lia.
Qed.

(** X20. To the operator, [/admin] reports the number of stored
    reservations and the number of those that are pending or confirmed
    and end at or after the current instant cut to the millisecond; the
    second never exceeds the first, and while at most 100 reservations are
    stored the two counts are the lengths of the two listing routes'
    answers. *)
Theorem admin_panel_counts (admin_username : string) (user : TgUser)
    (now : datetime) (db : list Booking) :
  at_username user = admin_username →
  let active :=
    filter (λ b, (status b = "pending" ∨ status b = "confirmed") ∧
                 bson_datetime now ≤ end_date b) db in
  admin_command admin_username user now db
  = MsgAdminPanel (Z.of_nat (length db)) (Z.of_nat (length active)) ∧
  (length active ≤ length db)%nat ∧
  ((length db ≤ 100)%nat →
   length (api_get_bookings db) = length db ∧
   length (api_get_active_bookings now db) = length active).
Proof.
  intros Hadmin active. subst active.
  rewrite active_filter_filter.
  pose proof (length_filter (λ b, active_filter now b = true) db) as Hle.
  split; [|split; [exact Hle|]].
  - unfold admin_command. rewrite admin_gate_open by exact Hadmin.
    rewrite count_documents_all. reflexivity.
  - intros Hlen. split.
    + unfold api_get_bookings, sort_desc.
      rewrite length_take, merge_sort_Permutation. lia.
    + unfold api_get_active_bookings, sort_asc.
      rewrite length_take, merge_sort_Permutation. lia.
Qed.

Lemma admin_panel_counts_witness :
  admin_command "@alice" alice sample_now sample_db = MsgAdminPanel 1 1.
Proof.
  refine (proj1 (admin_panel_counts "@alice" alice sample_now sample_db _)).
  reflexivity.
Defined.

(** X21. Whoever is not the operator gets the refusal and nothing else,
    from [/admin] and from every panel button: the answer does not depend
    on the collection.  The name compared with [ADMIN_USERNAME] is [@]
    followed by the username, and [@None] for a user without one. *)
Theorem non_operator_is_refused (admin_username : string) (user : TgUser)
    (now month_start : datetime) (data : admin_data) (db : list Booking) :
  at_username user ≠ admin_username →
  admin_command admin_username user now db = MsgNoAccess ∧
  handle_admin_callback admin_username user now month_start data db
  = [MsgNoAccess].
Proof.
  intros Hne. unfold admin_command, handle_admin_callback.
  rewrite admin_gate_closed by exact Hne. split; reflexivity.
Qed.

Lemma non_operator_is_refused_witness :
  admin_command "@alice" bob sample_now sample_db = MsgNoAccess ∧
  handle_admin_callback "@alice" bob sample_now sample_now admin_stats sample_db
  = [MsgNoAccess].
Proof.
  apply (non_operator_is_refused "@alice" bob sample_now sample_now
           admin_stats sample_db).
  discriminate.
Defined.

Lemma emoji_get_active s :
  s = "pending" ∨ s = "confirmed" →
  emoji_get status_emoji_active s = "⏳" ∨
  emoji_get status_emoji_active s = "✅".
Proof. intros [->| ->]; [left | right]; reflexivity. Qed.

Lemma or_unknown_nonempty o : or_unknown o ≠ "".
Proof.
  destruct o as [s|]; simpl; [|discriminate].
  destruct (String.eqb_spec s ""); [discriminate | assumption].
Qed.

(** X22. The operator's list of active reservations has at most 20
    entries, in ascending order of start date, each of a stored pending or
    confirmed reservation that ends at or after the current instant cut to
    the millisecond; the status mark of an entry is never the fallback
    mark, and its name is never empty. *)
Theorem admin_active_list_spec (admin_username : string) (user : TgUser)
    (now month_start : datetime) (db : list Booking) :
  at_username user = admin_username →
  ∃ entries,
    handle_admin_callback admin_username user now month_start
      admin_active_bookings db = [MsgActiveBookings entries] ∧
    (length entries ≤ 20)%nat ∧
    StronglySorted (λ a b, ae_start_date a ≤ ae_start_date b) entries ∧
    ∀ e, e ∈ entries →
      (ae_emoji e = "⏳" ∨ ae_emoji e = "✅") ∧ ae_emoji e ≠ "❓" ∧
      ae_first_name e ≠ "" ∧ bson_datetime now ≤ ae_end_date e ∧
      ∃ b, b ∈ db ∧ (status b = "pending" ∨ status b = "confirmed") ∧
           ae_start_date e = start_date b ∧ ae_end_date e = end_date b ∧
           ae_masks_count e = masks_count b ∧ ae_price e = price b.
Proof.
  intros Hadmin. unfold handle_admin_callback.
  rewrite admin_gate_open by exact Hadmin.
  destruct (sorted_take_spec (key_le start_date) 20
              (filter (λ b, active_filter now b = true) db))
    as (Hin & Hs & Hlen & _ & _ & _).
  eexists. split; [reflexivity|]. split; [|split].
  - rewrite length_fmap. exact Hlen.
  - eapply StronglySorted_fmap; [|exact Hs]. intros a b Hab. exact Hab.
  - intros e He. apply list_elem_of_fmap in He as (b & -> & Hb). simpl.
    apply Hin, list_elem_of_filter in Hb as [Hf Hb].
    apply active_filter_spec in Hf as [Hst Hend].
    pose proof (emoji_get_active _ Hst) as Hem.
    split; [exact Hem|]. split.
    { destruct Hem as [-> | ->]; discriminate. }
    split; [apply or_unknown_nonempty|]. split; [exact Hend|].
    exists b. repeat split; assumption.
Qed.

Lemma admin_active_list_spec_witness :
  handle_admin_callback "@alice" alice sample_now sample_now
    admin_active_bookings sample_db
  = [MsgActiveBookings
       [ {| ae_emoji := "✅";
            ae_start_date := timedelta_days 19676;
            ae_end_date := timedelta_days 19678;
            ae_masks_count := 2; ae_price := 0;
            ae_first_name := "Неизвестно" |} ]].
Proof.
  destruct (admin_active_list_spec "@alice" alice sample_now sample_now
              sample_db eq_refl) as (entries & Hrun & _).
  vm_compute. reflexivity.
Defined.

(** X23. In every reachable state the operator's statistics are
    consistent: the reservations of the month are at most all
    reservations, and the revenue of the month, which leaves the cancelled
    ones out, lies between 0 and 360 for each reservation of the month. *)
Theorem admin_stats_bounds (admin_username : string) (user : TgUser)
    (now month_start : datetime) (st : state) :
  reachable st →
  at_username user = admin_username →
  ∃ total monthly revenue,
    handle_admin_callback admin_username user now month_start admin_stats
      (bookings st) = [MsgStats total monthly revenue month_start now] ∧
    total = Z.of_nat (length (bookings st)) ∧
    0 ≤ monthly ≤ total ∧
    revenue = sum_price (filter (λ b, revenue_filter month_start b = true)
                           (bookings st)) ∧
    0 ≤ revenue ≤ 360 * monthly.
Proof.
  intros Hr Hadmin. destruct (reachable_inv st Hr) as [Hdb _].
  unfold handle_admin_callback. rewrite admin_gate_open by exact Hadmin.
  eexists _, _, _. split; [reflexivity|].
  rewrite !count_documents_all.
  split; [reflexivity|].
  pose proof (length_filter (λ b, monthly_filter month_start b = true)
                (bookings st)) as Hle.
  split; [unfold count_documents; lia|].
  split; [apply monthly_revenue_sum|].
  rewrite monthly_revenue_sum.
  assert (Hf : Forall stored_ok
                 (filter (λ b, revenue_filter month_start b = true) (bookings st))).
  { rewrite Forall_forall in *. intros b Hb.
    apply list_elem_of_filter in Hb as [_ Hb]. auto. }
  pose proof (sum_price_bounds _ Hf) as Hb.
  assert (Hlen : (length (filter (λ b, revenue_filter month_start b = true)
                            (bookings st))
                  ≤ length (filter (λ b, monthly_filter month_start b = true)
                              (bookings st)))%nat).
  { apply length_filter_impl. intros b. unfold revenue_filter, monthly_filter.
    rewrite andb_true_iff. tauto. }
  unfold count_documents. lia.
Qed.

Lemma admin_stats_bounds_witness :
  handle_admin_callback "@alice" alice sample_now 0 admin_stats
    (bookings dialogue_state)
  = [MsgStats 1 1 360 0 sample_now].
Proof.
  destruct (admin_stats_bounds "@alice" alice sample_now 0 dialogue_state
              dialogue_state_reachable eq_refl) as (t & m & r & Hrun & _).
  vm_compute. reflexivity.
Defined.

Lemma sum_price_filter_insert (f : Booking → bool) db (i : nat) b b' :
  db !! i = Some b →
  sum_price (filter (λ x, f x = true) (<[i := b']> db))
  = sum_price (filter (λ x, f x = true) db)
    - (if f b then price b else 0) + (if f b' then price b' else 0).
Proof.
  revert i. induction db as [|x db IH]; intros [|i] Hi; try discriminate.
  - injection Hi as ->. simpl. rewrite !filter_cons.
    destruct (f b), (f b'); simpl; lia.
  - simpl in Hi. simpl. rewrite !filter_cons.
    destruct (decide (f x = true)); simpl; rewrite (IH i Hi); lia.
Qed.

Lemma length_filter_insert_same (f : Booking → bool) db (i : nat) b b' :
  db !! i = Some b → f b' = f b →
  length (filter (λ x, f x = true) (<[i := b']> db))
  = length (filter (λ x, f x = true) db).
Proof.
  intros Hi Hf. revert i Hi.
  induction db as [|x db IH]; intros [|i] Hi; try discriminate.
  - injection Hi as ->. simpl. rewrite !filter_cons, Hf.
    destruct (decide (f b = true)); reflexivity.
  - simpl in Hi. simpl. rewrite !filter_cons.
    destruct (decide (f x = true)); simpl; rewrite (IH i Hi); reflexivity.
Qed.

(** X24. Cancelling a reservation through [update_booking_status] takes
    its price out of the revenue of the month (when it counted there) and
    changes neither the number of reservations of the month nor the total:
    a cancelled reservation is still counted as a reservation. *)
Theorem cancelling_lowers_revenue (st : state) (booking_id : string)
    (month_start : datetime) :
  (∃ b, b ∈ bookings st ∧ id b = booking_id) →
  ∃ (i : nat) (b : Booking),
    bookings st !! i = Some b ∧ id b = booking_id ∧
    (∀ (j : nat) b', (j < i)%nat → bookings st !! j = Some b' → id b' ≠ booking_id) ∧
    let db' := bookings (fst (update_booking_status booking_id "cancelled" st)) in
    monthly_revenue month_start db'
    = monthly_revenue month_start (bookings st)
      - (if revenue_filter month_start b then price b else 0) ∧
    count_documents (monthly_filter month_start) db'
    = count_documents (monthly_filter month_start) (bookings st) ∧
    count_documents (λ _, true) db' = count_documents (λ _, true) (bookings st).
Proof.
  intros Hex.
  destruct (update_one_status_matched booking_id "cancelled" (bookings st) Hex)
    as (i & b & Hi & Hid & Hfirst & Hupd).
  exists i, b. split; [exact Hi|]. split; [exact Hid|]. split; [exact Hfirst|].
  unfold update_booking_status. rewrite Hupd. simpl.
  split; [|split].
  - rewrite !monthly_revenue_sum, (sum_price_filter_insert _ _ _ _ _ Hi).
    replace (revenue_filter month_start (set_status "cancelled" b)) with false.
    + lia.
    + unfold revenue_filter. simpl. rewrite andb_false_r. reflexivity.
  - unfold count_documents. f_equal.
    apply (length_filter_insert_same _ _ _ _ _ Hi). reflexivity.
  - rewrite !count_documents_all, length_insert. reflexivity.
Qed.

Lemma cancelling_lowers_revenue_witness :
  monthly_revenue 0
    (bookings (fst (update_booking_status "uuid-1" "cancelled" dialogue_state)))
  = 0.
Proof.
  destruct (cancelling_lowers_revenue dialogue_state "uuid-1" 0)
    as (i & b & Hi & _ & _ & Hrev & _).
  - eexists. split; [apply list_elem_of_here | reflexivity].
  - cbv zeta in Hrev. rewrite Hrev.
    destruct i as [|i]; [|destruct i; discriminate Hi].
    injection Hi as <-. vm_compute. reflexivity.
Defined.

(** ** [handle_text] when a send fails *)

Lemma handle_text_io_commit io user now new_id text session start days masks p st :
  user_sessions st !! tg_id user = Some session →
  session !! "start_date" = Some start →
  session !! "days_count" = Some days →
  session !! "masks_count" = Some masks →
  PRICES_get masks days = Some p →
  let b := new_booking user now new_id text masks days start p in
  handle_text_io io user now new_id text st
  = if reply_ok io
    then ({| user_sessions := delete (tg_id user) (user_sessions st);
             bookings := bookings st ++ [b] |},
          Completed (MsgConfirmation b ::
                     if notify_ok io then [MsgAdminNotification b] else []))
    else ({| user_sessions := user_sessions st;
             bookings := bookings st ++ [b] |}, TelegramErrorRaised).
Proof.
  intros Hs Hst Hd Hm Hp. apply PRICES_get_Some in Hp as (row & Hrow & Hp).
  unfold handle_text_io. rewrite Hs, Hst, Hd, Hm, Hrow, Hp. reflexivity.
Qed.

(** With both sends going through, this is [handle_text]. *)
Lemma handle_text_io_agrees user now new_id text st :
  handle_text_io (mkIo true true) user now new_id text st
  = (fst (handle_text user now new_id text st),
     match snd (handle_text user now new_id text st) with
     | Ok sent => Completed sent
     | Raised _ => KeyErrorRaised
     end).
Proof.
  destruct (user_sessions st !! tg_id user) as [session|] eqn:Hs.
  2:{ rewrite handle_text_ignored by auto. unfold handle_text_io. rewrite Hs.
      reflexivity. }
  destruct (session !! "start_date") as [start|] eqn:Hst.
  2:{ rewrite handle_text_ignored by eauto. unfold handle_text_io.
      rewrite Hs, Hst. reflexivity. }
  unfold handle_text_io. run_handler. rewrite Hs, Hst. simpl.
  destruct (session !! "days_count") as [days|]; [|reflexivity]. simpl.
  destruct (session !! "masks_count") as [masks|]; [|reflexivity]. simpl.
  destruct (PRICES !! masks) as [row|]; [|reflexivity]. simpl.
  destruct (row !! days) as [p|]; reflexivity.
Qed.

(** X25. A failure of the notification to the operator is caught: as long
    as the reply to the requester goes through, the state after
    [handle_text] is the same whether or not the notification was
    delivered (a committed reservation stays, its session is removed), and
    with both sends going through it is the handler of the dialogue. *)
Theorem notification_failure_is_harmless (io : telegram_io) (user : TgUser)
    (now : datetime) (new_id text : string) (st : state) :
  reply_ok io = true →
  fst (handle_text_io io user now new_id text st)
  = fst (handle_text user now new_id text st) ∧
  (∀ e, snd (handle_text user now new_id text st) = Raised e →
        snd (handle_text_io io user now new_id text st) = KeyErrorRaised) ∧
  (∀ b rest,
     snd (handle_text user now new_id text st) = Ok (MsgConfirmation b :: rest) →
     snd (handle_text_io io user now new_id text st)
     = Completed (MsgConfirmation b ::
                  if notify_ok io then [MsgAdminNotification b] else [])).
Proof.
  intros Hreply.
  destruct (handle_text_cases user now new_id text st)
    as [H|[H|(session & start & days & masks & p & Hs & Hst & Hd & Hm & Hp & H)]].
  - pose proof (handle_text_io_agrees user now new_id text st) as Ha.
    rewrite H in Ha |- *. simpl in Ha |- *.
    assert (Hio : handle_text_io io user now new_id text st = (st, Completed [])).
    { revert Ha. unfold handle_text_io.
      destruct (user_sessions st !! tg_id user) as [session|]; [|reflexivity].
      destruct (session !! "start_date"); [|reflexivity].
      destruct (session !! "days_count"); [|discriminate].
      destruct (session !! "masks_count"); [|discriminate].
      destruct (PRICES !! _) as [row|]; [|discriminate].
      destruct (row !! _); discriminate. }
    rewrite Hio. simpl. repeat split; intros; discriminate.
  - pose proof (handle_text_io_agrees user now new_id text st) as Ha.
    rewrite H in Ha |- *. simpl in Ha |- *.
    assert (Hio : handle_text_io io user now new_id text st = (st, KeyErrorRaised)).
    { revert Ha. unfold handle_text_io.
      destruct (user_sessions st !! tg_id user) as [session|]; [|discriminate].
      destruct (session !! "start_date"); [|discriminate].
      destruct (session !! "days_count"); [|reflexivity].
      destruct (session !! "masks_count"); [|reflexivity].
      destruct (PRICES !! _) as [row|]; [|reflexivity].
      destruct (row !! _); [discriminate | reflexivity]. }
    rewrite Hio. simpl. repeat split; intros; discriminate.
  - cbv zeta in H. rewrite H.
    rewrite (handle_text_io_commit io user now new_id text session start days
               masks p st Hs Hst Hd Hm Hp), Hreply. simpl.
    split; [reflexivity|]. split; [discriminate|].
    intros b rest [= <- _]. reflexivity.
Qed.

Lemma notification_failure_is_harmless_witness :
  fst (handle_text_io (mkIo true false) alice sample_now "uuid-1" "Addr 1"
         ready_state)
  = fst (handle_text alice sample_now "uuid-1" "Addr 1" ready_state).
Proof.
  refine (proj1 (notification_failure_is_harmless (mkIo true false) alice
                   sample_now "uuid-1" "Addr 1" ready_state _)).
  reflexivity.
Defined.

(** X26. A failure of the reply to the requester comes after the insert
    and before the removal of the session: the reservation is stored and
    the session is still there, so a repeated text message stores a second
    reservation of the same quantity on the same window. *)
Theorem reply_failure_allows_second_commit (io io' : telegram_io)
    (user : TgUser) (now now' : datetime) (new_id new_id' text text' : string)
    (session : gmap string Z) (start days masks p : Z) (st : state) :
  reply_ok io = false →
  reply_ok io' = true →
  user_sessions st !! tg_id user = Some session →
  session !! "start_date" = Some start →
  session !! "days_count" = Some days →
  session !! "masks_count" = Some masks →
  PRICES_get masks days = Some p →
  let b := new_booking user now new_id text masks days start p in
  let b' := new_booking user now' new_id' text' masks days start p in
  let run1 := handle_text_io io user now new_id text st in
  let run2 := handle_text_io io' user now' new_id' text' (fst run1) in
  run1 = ({| user_sessions := user_sessions st;
             bookings := bookings st ++ [b] |}, TelegramErrorRaised) ∧
  bookings (fst run2) = bookings st ++ [b; b'] ∧
  user_sessions (fst run2) !! tg_id user = None ∧
  ∀ t, load (bookings (fst run2)) t
       = load (bookings st) t
         + (if bool_decide (start ≤ t < start + timedelta_days days)
            then 2 * masks else 0).
Proof.
  intros Hfail Hok Hs Hst Hd Hm Hp. cbv zeta.
  rewrite (handle_text_io_commit io user now new_id text session start days
             masks p st Hs Hst Hd Hm Hp), Hfail.
  split; [reflexivity|]. cbn [fst snd].
  rewrite (handle_text_io_commit io' user now' new_id' text' session start days
             masks p
             {| user_sessions := user_sessions st;
                bookings := bookings st ++
                  [new_booking user now new_id text masks days start p] |}
             Hs Hst Hd Hm Hp), Hok. simpl.
  split; [rewrite <- app_assoc; reflexivity|].
  split; [apply lookup_delete_eq|].
  intros t. rewrite !load_commit by reflexivity. simpl.
  destruct (bool_decide (start ≤ t < start + timedelta_days days)); lia.
Qed.

Lemma reply_failure_allows_second_commit_witness :
  load (bookings
          (fst (handle_text_io (mkIo true true) alice sample_now "uuid-2" "Addr 1"
             (fst (handle_text_io (mkIo false true) alice sample_now "uuid-1"
                     "Addr 1" ready_state)))))
    (timedelta_days 19680)
  = load (bookings ready_state) (timedelta_days 19680)
    + (if bool_decide (timedelta_days 19680 ≤ timedelta_days 19680
                       < timedelta_days 19680 + timedelta_days 3)
       then 2 * 2 else 0).
Proof.
  refine (proj2 (proj2 (proj2
    (reply_failure_allows_second_commit (mkIo false true) (mkIo true true)
       alice sample_now sample_now "uuid-1" "uuid-2" "Addr 1" "Addr 1"
       {[ "masks_count" := 2; "days_count" := 3;
          "start_date" := timedelta_days 19680 ]}
       (timedelta_days 19680) 3 2 360 ready_state
       eq_refl eq_refl eq_refl eq_refl eq_refl eq_refl eq_refl))) _).
Defined.

(** ** Repeated buttons *)

Lemma handle_callback_days_fst user now n session st :
  user_sessions st !! tg_id user = Some session →
  fst (handle_callback user now (days_ n) st)
  = with_session (tg_id user) (<[ "days_count" := n ]> session) st.
Proof.
  intros Hs. run_handler. rewrite Hs. simpl.
  destruct (_ !! "masks_count") as [m|]; [|reflexivity]. simpl.
  destruct (get_available_dates now (bookings st) m n); [reflexivity|].
  destruct (PRICES !! m) as [row|]; [|reflexivity]. simpl.
  destruct (row !! n); reflexivity.
Qed.

Lemma handle_callback_date_fst user now e session st :
  user_sessions st !! tg_id user = Some session →
  fst (handle_callback user now (date_ e) st)
  = with_session (tg_id user)
      (<[ "start_date" := timedelta_days e ]> session) st.
Proof.
  intros Hs. run_handler. rewrite Hs. simpl.
  destruct (_ !! "days_count"); reflexivity.
Qed.

(** X27. Every button is idempotent: delivered twice in a row (at the
    same instant), it leaves the state of the first delivery and gives the
    same answer, be it a message or an exception. *)
Theorem buttons_are_idempotent (user : TgUser) (now : datetime)
    (data : callback_data) (st : state) :
  let run := handle_callback user now data st in
  handle_callback user now data (fst run) = run.
Proof.
  intros run. subst run. destruct data as [|n|n|e|].
  - reflexivity.
  - rewrite handle_callback_masks_state.
    run_handler. rewrite insert_insert_eq. reflexivity.
  - destruct (user_sessions st !! tg_id user) as [session|] eqn:Hs.
    + rewrite (handle_callback_days_fst user now n session st Hs).
      run_handler. rewrite lookup_insert_eq, Hs. simpl.
      rewrite !insert_insert_eq. reflexivity.
    + run_handler. rewrite Hs. simpl. rewrite Hs. reflexivity.
  - destruct (user_sessions st !! tg_id user) as [session|] eqn:Hs.
    + rewrite (handle_callback_date_fst user now e session st Hs).
      run_handler. rewrite lookup_insert_eq, Hs. simpl.
      rewrite !insert_insert_eq. reflexivity.
    + run_handler. rewrite Hs. simpl. rewrite Hs. reflexivity.
  - reflexivity.
Qed.

(** * The handlers within the range of [datetime] *)

(** ** Dates that stay in range *)

Lemma add_days_Some dt n :
  Z.abs n ≤ timedelta_max_days →
  datetime_min ≤ dt + timedelta_days n ≤ datetime_max →
  add_days dt n = Some (dt + timedelta_days n).
Proof.
  intros Hn [Hlo Hhi]. unfold add_days.
  apply Z.leb_le in Hn, Hlo, Hhi. rewrite Hn, Hlo, Hhi. reflexivity.
Qed.


Lemma scan_in_range_adds now dur i :
  scan_in_range now dur → 1 ≤ i ≤ 30 →
  add_days (midnight now) i = Some (midnight now + timedelta_days i) ∧
  add_days (midnight now + timedelta_days i) dur
  = Some (midnight now + timedelta_days i + timedelta_days dur).
Proof.
  intros (Hd & Hlo & Hhi & Hlo' & Hhi') Hi.
  unfold timedelta_days, day in *. split; apply add_days_Some;
    unfold timedelta_max_days, timedelta_days, day in *; lia.
Qed.

(** Where no addition overflows, the checked loop is the loop. *)
Lemma scan_dates_checked_agrees db today q dur indices acc :
  (∀ i, i ∈ indices →
     add_days today i = Some (today + timedelta_days i) ∧
     add_days (today + timedelta_days i) dur
     = Some (today + timedelta_days i + timedelta_days dur)) →
  scan_dates_checked db today q dur indices acc
  = Done (scan_dates db today q dur indices acc).
Proof.
  revert acc. induction indices as [|i indices IH]; intros acc Hin.
  - reflexivity.
  - destruct (Hin i) as [H1 H2]; [apply list_elem_of_here|].
    simpl. rewrite H1, H2.
    destruct (7 <=? Z.of_nat (length _)); [reflexivity|].
    apply IH. intros j Hj. apply Hin. apply elem_of_cons. right. exact Hj.
Qed.

Lemma get_available_dates_checked_agrees now db q dur :
  scan_in_range now dur →
  get_available_dates_checked now db q dur
  = Done (get_available_dates now db q dur).
Proof.
  intros Hr. unfold get_available_dates_checked, get_available_dates.
  apply scan_dates_checked_agrees. intros i Hi.
  unfold range in Hi. apply elem_of_seqZ in Hi.
  apply scan_in_range_adds; [exact Hr | lia].
Qed.

(** The loop raises nothing but [OverflowError]. *)
Lemma scan_dates_checked_fails db today q dur indices acc e :
  scan_dates_checked db today q dur indices acc = Fails e →
  e = ErrOverflowError.
Proof.
  revert acc. induction indices as [|i indices IH]; intros acc; simpl.
  - discriminate.
  - destruct (add_days today i) as [c|]; [|intros [= <-]; reflexivity].
    destruct (add_days c dur) as [e'|]; [|intros [= <-]; reflexivity].
    destruct (7 <=? Z.of_nat (length _)); [discriminate|]. apply IH.
Qed.

Example scan_overflows :
  get_available_dates_checked sample_now sample_db 1 3000000
  = Fails ErrOverflowError.
Proof. vm_compute. reflexivity. Qed.

Lemma sample_scan_in_range dur : 0 ≤ dur ≤ 1000 → scan_in_range sample_now dur.
Proof.
  intros Hd. unfold scan_in_range. rewrite sample_today.
  unfold timedelta_max_days, datetime_min, datetime_max, timedelta_days, day.
  lia.
Qed.

(** C6, amended.  [get_available_dates] checks no domain and never fails
    with [InvalidRequest]: for every quantity and every duration, in the
    configured domain or not, for which the windows of the candidates
    [today + 1 day .. today + 30 days] stay within the range of
    [datetime], it returns the first seven of those candidates whose
    counted quantity plus the requested quantity is at most 2; and when
    it fails, it fails with the [OverflowError] of a date that leaves that
    range. *)
Theorem get_available_dates_unvalidated (now : datetime) (db : list Booking)
    (masks_needed days_needed : Z) :
  (scan_in_range now days_needed →
   get_available_dates_checked now db masks_needed days_needed =
   Done (take 7 (filter
                   (λ d, booked_masks db d (d + timedelta_days days_needed)
                         + masks_needed ≤ 2)
                   ((λ i, midnight now + timedelta_days i) <$> range 1 31)))) ∧
  (∀ e, get_available_dates_checked now db masks_needed days_needed = Fails e →
        e = ErrOverflowError ∧ ¬ scan_in_range now days_needed).
Proof.
  split.
  - intros Hr. rewrite (get_available_dates_checked_agrees _ _ _ _ Hr).
    f_equal. rewrite get_available_dates_take, filter_fmap_comm. do 2 f_equal.
    apply list_filter_iff. intros i. unfold candidate_ok.
    rewrite Z.leb_le. reflexivity.
  - intros e He. split.
    + eapply scan_dates_checked_fails. exact He.
    + intros Hr. rewrite (get_available_dates_checked_agrees _ _ _ _ Hr) in He.
      discriminate He.
Qed.

Lemma get_available_dates_unvalidated_witness :
  get_available_dates_checked sample_now sample_db 0 7 =
  Done (take 7 (filter
                  (λ d, booked_masks sample_db d (d + timedelta_days 7) + 0 ≤ 2)
                  ((λ i, midnight sample_now + timedelta_days i) <$> range 1 31))).
Proof.
  apply (proj1 (get_available_dates_unvalidated sample_now sample_db 0 7)).
  apply sample_scan_in_range. lia.
Defined.

(** X4. When no stored reservation is pending or confirmed, a request for
    at most 2 units is offered exactly the seven days that follow today,
    and a request for more than 2 units is offered nothing, for every
    duration for which the windows of the thirty candidates stay within
    the range of [datetime]. *)
Theorem scan_of_free_inventory (now : datetime) (db : list Booking)
    (masks_needed days_needed : Z) :
  (∀ b, b ∈ db → status_in active_statuses b = false) →
  scan_in_range now days_needed →
  get_available_dates_checked now db masks_needed days_needed =
  Done (if decide (masks_needed ≤ 2)
        then (λ i, midnight now + timedelta_days i) <$> seqZ 1 7
        else []).
Proof.
  intros Hno Hr. rewrite (get_available_dates_checked_agrees _ _ _ _ Hr).
  f_equal. apply free_inventory_dates, Hno.
Qed.

Lemma scan_of_free_inventory_witness :
  get_available_dates_checked sample_now
    [ sample_booking "A" 1 2 2 19676 "cancelled" ] 2 3 =
  Done ((λ i, midnight sample_now + timedelta_days i) <$> seqZ 1 7).
Proof.
  apply (scan_of_free_inventory sample_now
           [ sample_booking "A" 1 2 2 19676 "cancelled" ] 2 3).
  - intros b Hb. apply list_elem_of_singleton in Hb. subst b. reflexivity.
  - apply sample_scan_in_range. lia.
Defined.

(** ** The commit within the range *)

Lemma priced_days_in_range masks days p start :
  PRICES_get masks days = Some p →
  datetime_min ≤ start → start + timedelta_days days ≤ datetime_max →
  add_days start days = Some (start + timedelta_days days).
Proof.
  intros Hp Hlo Hhi. destruct (PRICES_domain _ _ _ Hp) as [_ Hd].
  apply add_days_Some.
  - unfold timedelta_max_days. lia.
  - unfold timedelta_days, day in *. lia.
Qed.

Lemma handle_text_checked_commit io user now new_id text session start days
    masks p st :
  user_sessions st !! tg_id user = Some session →
  session !! "start_date" = Some start →
  session !! "days_count" = Some days →
  session !! "masks_count" = Some masks →
  PRICES_get masks days = Some p →
  add_days start days = Some (start + timedelta_days days) →
  let b := new_booking user now new_id text masks days start p in
  handle_text_checked io user now new_id text st
  = if reply_ok io
    then ({| user_sessions := delete (tg_id user) (user_sessions st);
             bookings := bookings st ++ [stored b] |},
          Done (MsgConfirmation b ::
                if notify_ok io then [MsgAdminNotification b] else []))
    else ({| user_sessions := user_sessions st;
             bookings := bookings st ++ [stored b] |}, Fails ErrTelegramError).
Proof.
  intros Hs Hst Hd Hm Hp Ha. apply PRICES_get_Some in Hp as (row & Hrow & Hp).
  unfold handle_text_checked. rewrite Hs, Hst, Hd, Hm, Ha, Hrow, Hp. reflexivity.
Qed.


Lemma timedelta_days_exact n : timedelta_days n mod 1000 = 0.
Proof.
  unfold timedelta_days, day.
  replace (n * 86400000000) with (n * 86400000 * 1000) by lia.
  apply Z.mod_mul. lia.
Qed.

Lemma add_exact a b : a mod 1000 = 0 → b mod 1000 = 0 → (a + b) mod 1000 = 0.
Proof. intros Ha Hb. rewrite Z.add_mod, Ha, Hb by lia. reflexivity. Qed.

(** A reservation whose dates are whole milliseconds is stored with the
    same dates. *)
Lemma load_stored db b t :
  start_date b mod 1000 = 0 → end_date b mod 1000 = 0 →
  load (db ++ [stored b]) t = load (db ++ [b]) t.
Proof.
  intros Hs He. rewrite !load_app, !load_singleton. f_equal.
  unfold covers, status_in. simpl.
  rewrite (bson_datetime_exact _ Hs), (bson_datetime_exact _ He). reflexivity.
Qed.

(** C1, amended.  [handle_text] performs no overlap or capacity check and
    never rejects for capacity: whenever the requester's session holds a
    start date (a whole number of milliseconds, as every date a date
    button writes is), a duration and a quantity priced by [PRICES], and
    the end date, [days_count] days after the start date, lies within the
    range of [datetime], it persists the reservation with status pending;
    the session is removed when the reply to the requester is delivered.
    After the commit the units in use at an instant are those in use
    before plus the new quantity at the instants of the new window; so the
    capacity invariant holds after the commit when it held before and the
    units in use before left room for the quantity at every instant of
    the window. *)
Theorem handle_text_commits_unchecked (io : telegram_io) (user : TgUser)
    (now : datetime) (new_id text : string) (session : gmap string Z)
    (start days masks p : Z) (st : state) :
  user_sessions st !! tg_id user = Some session →
  session !! "start_date" = Some start →
  session !! "days_count" = Some days →
  session !! "masks_count" = Some masks →
  PRICES_get masks days = Some p →
  start mod 1000 = 0 →
  datetime_min ≤ start →
  start + timedelta_days days ≤ datetime_max →
  let b := new_booking user now new_id text masks days start p in
  let run := handle_text_checked io user now new_id text st in
  bookings (fst run) = bookings st ++ [stored b] ∧
  status (stored b) = "pending" ∧
  start_date (stored b) = start ∧
  end_date (stored b) = start + timedelta_days days ∧
  (reply_ok io = true →
   run = ({| user_sessions := delete (tg_id user) (user_sessions st);
             bookings := bookings st ++ [stored b] |},
          Done (MsgConfirmation b ::
                if notify_ok io then [MsgAdminNotification b] else []))) ∧
  (reply_ok io = false →
   run = ({| user_sessions := user_sessions st;
             bookings := bookings st ++ [stored b] |}, Fails ErrTelegramError)) ∧
  (∀ t, load (bookings (fst run)) t =
        load (bookings st) t +
        (if bool_decide (start ≤ t < start + timedelta_days days)
         then masks else 0)) ∧
  ((∀ t, load (bookings st) t ≤ 2) →
   (∀ t, start ≤ t < start + timedelta_days days →
         load (bookings st) t + masks ≤ 2) →
   ∀ t, load (bookings (fst run)) t ≤ 2).
Proof.
  intros Hs Hst Hd Hm Hp Hms Hlo Hhi b run.
  pose proof (add_exact _ _ Hms (timedelta_days_exact days)) as Hme.
  pose proof (priced_days_in_range masks days p start Hp Hlo Hhi) as Ha.
  pose proof (handle_text_checked_commit io user now new_id text session start
                days masks p st Hs Hst Hd Hm Hp Ha) as Hrun.
  cbv zeta in Hrun. fold b in Hrun. fold run in Hrun.
  assert (Hdb : bookings (fst run) = bookings st ++ [stored b]).
  { rewrite Hrun. destruct (reply_ok io); reflexivity. }
  assert (Hload : ∀ t, load (bookings (fst run)) t =
            load (bookings st) t +
            (if bool_decide (start ≤ t < start + timedelta_days days)
             then masks else 0)).
  { intros t. rewrite Hdb, load_stored, load_commit by assumption || reflexivity.
    reflexivity. }
  split; [exact Hdb|]. split; [reflexivity|].
  split; [apply bson_datetime_exact, Hms|].
  split; [apply bson_datetime_exact, Hme|].
  split; [intros Hr; rewrite Hrun, Hr; reflexivity|].
  split; [intros Hr; rewrite Hrun, Hr; reflexivity|].
  split; [exact Hload|].
  intros Hinv Hroom t. rewrite Hload.
  destruct (bool_decide_reflect (start ≤ t < start + timedelta_days days)) as [Hin|_].
  - apply Hroom, Hin.
  - specialize (Hinv t). lia.
Qed.

Lemma handle_text_commits_unchecked_witness :
  load (bookings (fst (handle_text_checked (mkIo true true) alice sample_now
                         "uuid-1" "Addr 1" ready_state)))
    (timedelta_days 19681) ≤ 2.
Proof.
  generalize (timedelta_days 19681).
  destruct (handle_text_commits_unchecked (mkIo true true) alice sample_now
              "uuid-1" "Addr 1"
              {[ "masks_count" := 2; "days_count" := 3;
                 "start_date" := timedelta_days 19680 ]}
              (timedelta_days 19680) 3 2 360 ready_state)
    as (_ & _ & _ & _ & _ & _ & _ & Hinv); try reflexivity.
  - vm_compute. discriminate.
  - vm_compute. discriminate.
  - apply Hinv.
    + exact sample_db_load.
    + intros t Ht. simpl. unfold sample_db. rewrite load_singleton.
      destruct (covers t _) eqn:Hc; [|lia].
      unfold covers in Hc. rewrite !andb_true_iff, Z.leb_le, Z.ltb_lt in Hc.
      simpl in Hc. unfold timedelta_days, day in *. lia.
Defined.

(** On the last day of the calendar the end date leaves the range: the
    handler raises, stores nothing and keeps the session. *)
Example commit_overflows :
  handle_text_checked (mkIo true true) alice sample_now "uuid-1" "Addr 1"
    last_day_state
  = (last_day_state, Fails ErrOverflowError).
Proof. vm_compute. reflexivity. Qed.


(** ** The dialogue within the range *)

Lemma and_then_Done {A B} (f : state → state * outcome A)
    (g : state → state * outcome B) st st' a :
  f st = (st', Done a) → and_then f g st = g st'.
Proof. intros H. unfold and_then. rewrite H. reflexivity. Qed.

Lemma handle_callback_checked_days user now n session masks p st :
  user_sessions st !! tg_id user = Some session →
  session !! "masks_count" = Some masks →
  PRICES_get masks n = Some p →
  scan_in_range now n →
  handle_callback_checked user now (days_ n) st
  = (with_session (tg_id user) (<[ "days_count" := n ]> session) st,
     Done match get_available_dates now (bookings st) masks n with
          | [] => [MsgNoDates]
          | dates => [MsgChooseDate dates p]
          end).
Proof.
  intros Hs Hm Hp Hr. apply PRICES_get_Some in Hp as (row & Hrow & Hp).
  unfold handle_callback_checked. rewrite Hs.
  rewrite lookup_insert_ne by discriminate. rewrite Hm.
  cbn [bookings].
  rewrite (get_available_dates_checked_agrees _ _ _ _ Hr).
  destruct (get_available_dates now (bookings st) masks n); [reflexivity|].
  rewrite Hrow, Hp. reflexivity.
Qed.

Lemma handle_callback_checked_date user now e session days st :
  user_sessions st !! tg_id user = Some session →
  session !! "days_count" = Some days →
  epoch_day_min ≤ e ≤ epoch_day_max →
  add_days (timedelta_days e) days
  = Some (timedelta_days e + timedelta_days days) →
  handle_callback_checked user now (date_ e) st
  = (with_session (tg_id user)
       (<[ "start_date" := timedelta_days e ]> session) st,
     Done [MsgAskAddress (timedelta_days e)
             (timedelta_days e + timedelta_days days)]).
Proof.
  intros Hs Hd [Hlo Hhi] Ha. unfold handle_callback_checked.
  apply Z.leb_le in Hlo, Hhi. rewrite Hlo, Hhi, Hs. cbn [andb].
  rewrite lookup_insert_ne by discriminate. rewrite Hd, Ha. reflexivity.
Qed.

Lemma finish_flow_checked_run io user n1 n2 n3 days e new_id text session
    masks p st :
  user_sessions st !! tg_id user = Some session →
  session !! "masks_count" = Some masks →
  PRICES_get masks days = Some p →
  scan_in_range n1 days →
  epoch_day_min ≤ e →
  timedelta_days e + timedelta_days days ≤ datetime_max →
  let b := new_booking user n3 new_id text masks days (timedelta_days e) p in
  finish_flow_checked io user n1 n2 n3 days e new_id text st
  = if reply_ok io
    then ({| user_sessions := delete (tg_id user) (user_sessions st);
             bookings := bookings st ++ [stored b] |},
          Done (MsgConfirmation b ::
                if notify_ok io then [MsgAdminNotification b] else []))
    else ({| user_sessions :=
               <[ tg_id user :=
                    <[ "start_date" := timedelta_days e ]>
                      (<[ "days_count" := days ]> session) ]> (user_sessions st);
             bookings := bookings st ++ [stored b] |}, Fails ErrTelegramError).
Proof.
  intros Hs Hm Hp Hr Hlo Hhi b. unfold finish_flow_checked.
  assert (Hmin : datetime_min ≤ timedelta_days e).
  { unfold epoch_day_min, datetime_min, timedelta_days, day in *. lia. }
  pose proof (priced_days_in_range masks days p (timedelta_days e) Hp Hmin Hhi)
    as Ha.
  assert (Hmax : e ≤ epoch_day_max).
  { destruct (PRICES_domain _ _ _ Hp) as [_ Hd].
    unfold epoch_day_max, datetime_max, timedelta_days, day in *. lia. }
  erewrite and_then_Done
    by (eapply handle_callback_checked_days; eassumption).
  erewrite and_then_Done.
  2:{ eapply handle_callback_checked_date with (days := days).
      - simpl. apply lookup_insert_eq.
      - apply lookup_insert_eq.
      - split; assumption.
      - exact Ha. }
  erewrite handle_text_checked_commit
    with (start := timedelta_days e) (days := days) (masks := masks) (p := p).
  2:{ simpl. apply lookup_insert_eq. }
  2:{ apply lookup_insert_eq. }
  2:{ rewrite lookup_insert_ne by discriminate. apply lookup_insert_eq. }
  2:{ rewrite !lookup_insert_ne by discriminate. exact Hm. }
  2:{ exact Hp. }
  2:{ exact Ha. }
  simpl. rewrite !delete_insert_eq, !insert_insert_eq. reflexivity.
Qed.

(** X11. The date of a date button is checked neither against the dates
    that were offered nor against today: once the requester's session
    holds a quantity and the duration is priced for it, the duration
    button, a date button of any day of the calendar whose window ends
    within the range of [datetime], and a text message store a
    reservation that starts on that day. *)
Theorem any_date_is_committed (io : telegram_io) (user : TgUser)
    (n1 n2 n3 : datetime) (days epoch_day : Z) (new_id text : string)
    (session : gmap string Z) (masks p : Z) (st : state) :
  user_sessions st !! tg_id user = Some session →
  session !! "masks_count" = Some masks →
  PRICES_get masks days = Some p →
  scan_in_range n1 days →
  epoch_day_min ≤ epoch_day →
  timedelta_days epoch_day + timedelta_days days ≤ datetime_max →
  let st' := fst (finish_flow_checked io user n1 n2 n3 days epoch_day
                    new_id text st) in
  let b := new_booking user n3 new_id text masks days
             (timedelta_days epoch_day) p in
  bookings st' = bookings st ++ [stored b] ∧
  start_date (stored b) = timedelta_days epoch_day ∧
  end_date (stored b) = timedelta_days (epoch_day + days) ∧
  (reply_ok io = true → user_sessions st' !! tg_id user = None).
Proof.
  intros Hs Hm Hp Hr Hlo Hhi st' b. subst st'.
  rewrite (finish_flow_checked_run io user n1 n2 n3 days epoch_day new_id text
             session masks p st Hs Hm Hp Hr Hlo Hhi).
  fold b. split; [destruct (reply_ok io); reflexivity|].
  split; [apply bson_datetime_exact, timedelta_days_exact|].
  split.
  { simpl. replace (timedelta_days epoch_day + timedelta_days days)
      with (timedelta_days (epoch_day + days)) by (unfold timedelta_days; lia).
    apply bson_datetime_exact, timedelta_days_exact. }
  intros ->. simpl. apply lookup_delete_eq.
Qed.

(** Day 0 of the epoch, long before [sample_now], is not among the offered
    dates and is stored all the same. *)
Lemma any_date_is_committed_witness :
  (timedelta_days 0 ∉ get_available_dates sample_now sample_db 1 1) ∧
  bookings (fst (finish_flow_checked (mkIo true true) bob sample_now sample_now
                   sample_now 1 0 "uuid-9" "Addr" busy_state))
  = bookings busy_state ++
    [ stored (new_booking bob sample_now "uuid-9" "Addr" 1 1
                (timedelta_days 0) 70) ].
Proof.
  split.
  - intros Hin. apply get_available_dates_elem in Hin as (i & Hi & Hd & _).
    rewrite sample_today in Hd. unfold timedelta_days, day in Hd. lia.
  - refine (proj1 (any_date_is_committed (mkIo true true) bob sample_now
                     sample_now sample_now 1 0 "uuid-9" "Addr"
                     {[ "masks_count" := 1; "days_count" := 1 ]} 1 70 busy_state
                     eq_refl eq_refl eq_refl _ _ _)).
    + apply sample_scan_in_range. lia.
    + vm_compute. discriminate.
    + vm_compute. discriminate.
Defined.

(** The date button of the last day of the calendar raises
    [OverflowError] after the date is written to the session. *)
Example date_button_overflows :
  snd (handle_callback_checked bob sample_now (date_ epoch_day_max) busy_state)
  = Fails ErrOverflowError.
Proof. vm_compute. reflexivity. Qed.

(** ** The precision of the active listing on an example *)

(** One microsecond after the end of the stored reservation the query
    still matches it; a millisecond after, it does not. *)
Example active_listing_millisecond :
  api_get_active_bookings (timedelta_days 19678 + 1) sample_db = sample_db ∧
  api_get_active_bookings (timedelta_days 19678 + 1000) sample_db = [].
Proof. split; vm_compute; reflexivity. Qed.
